(** * Weekly roster viewer (app.py): a shallow embedding and its properties

    The Streamlit script [app.py] lists the spreadsheets of [./data], loads the
    chosen one with pandas, detects the class / number / name columns, offers
    the remaining subject columns, keeps the rows marked 1 in the chosen
    subject, previews them and offers them as an Excel download.

    The embedding follows the script top to bottom.  Python values are an
    inductive type, data frames are a list of labels and dtypes with a list
    of rows, openpyxl worksheets are finite maps from (row, column) to cells,
    and the script itself runs in a small writer monad that records every
    file-system access and every Streamlit call and that can stop
    ([st.stop]) or end with an uncaught exception.

    The functions of the Python runtime that the script calls but does not
    define (case mapping, regular-expression search, Unicode normalisation,
    whitespace stripping, the [float] constructor and [repr] of floats) are
    the methods of the class [PyRuntime]; [ascii_runtime] implements them for
    ASCII text so that every definition can be run. *)

From Stdlib Require Import ZArith String Ascii.
From Stdlib Require Import Floats.SpecFloat.
From stdpp Require Import gmap strings list sorting pretty.

Open Scope string_scope.
Open Scope nat_scope.
Open Scope list_scope.
Open Scope stdpp_scope.

(** ** Python values *)

(** Binary64 floats, as [SpecFloat] has them. *)
Definition float : Type := spec_float.

Definition float_one : float := S754_finite false 4503599627370496 (-52).
Definition float_zero : float := S754_zero false.

(** [a == b] on floats. *)
Definition float_eq (a b : float) : bool := SFeqb a b.

Definition float_is_nan (f : float) : bool :=
  match f with S754_nan => true | _ => false end.

(** The float nearest to an int, ties to even: what a cast of int64 to
    float64 gives. *)
Definition float_of_int (z : Z) : float := binary_normalize 53 1024 z 0 false.

(** The scalars that pandas and openpyxl hand to the script. *)
Inductive pyval :=
| PNone
| PBool (b : bool)
| PInt (z : Z)
| PFloat (f : float)
| PStr (s : string)
| PNaT
| PObj (shown : string).  (* any other object (datetime, time, ...), with its str() *)

(** Exceptions carry their class name and message. *)
Inductive exn := Exn (kind msg : string).

Definition exn_str (e : exn) : string := let 'Exn _ m := e in m.

Inductive result (A : Type) :=
| Ok (a : A)
| Raise (e : exn).
Arguments Ok {A} a.
Arguments Raise {A} e.

Global Instance result_ret : MRet result := λ A a, Ok a.
Global Instance result_bind : MBind result := λ A B f m,
  match m with Ok a => f a | Raise e => Raise e end.

(** ** The Python runtime *)

Class PyRuntime := {
  (** [s.lower()] *)
  str_lower : string → string;
  (** [s.strip()] *)
  str_strip : string → string;
  (** [re.compile(re.escape(pat), re.IGNORECASE).search(s)] finds a match *)
  re_search_icase : string → string → bool;
  (** [unicodedata.normalize("NFC", s)] *)
  unicodedata_nfc : string → string;
  (** [float(s)] for a str [s]; [None] stands for ValueError *)
  float_of_string : string → option float;
  (** [repr(f)] for a float [f] *)
  float_repr : float → string;
}.

(** ** Plain string helpers (byte-wise; the patterns used are ASCII) *)

Fixpoint str_prefix_drop (p s : string) : option string :=
  match p, s with
  | EmptyString, _ => Some s
  | String a p', String b s' => if Ascii.eqb a b then str_prefix_drop p' s' else None
  | String _ _, EmptyString => None
  end.

Definition str_startswith (s p : string) : bool :=
  match str_prefix_drop p s with Some _ => true | None => false end.

(** [s.endswith(suf)]: some tail of [s] is [suf]. *)
Fixpoint str_endswith (s suf : string) : bool :=
  String.eqb s suf
  || match s with
     | EmptyString => false
     | String _ s' => str_endswith s' suf
     end.

(** [s.replace(old, new)] for a non-empty [old]: scan left to right, replacing
    each occurrence and resuming after it. [skip] counts the bytes of a
    replaced occurrence that are still to be dropped. *)
Fixpoint str_replace_go (old new : string) (skip : nat) (s : string) : string :=
  match s with
  | EmptyString => EmptyString
  | String a s' =>
      match skip with
      | S k => str_replace_go old new k s'
      | O =>
          if str_startswith s old
          then new +:+ str_replace_go old new (String.length old - 1) s'
          else String a (str_replace_go old new 0 s')
      end
  end.

Definition str_replace (s old new : string) : string :=
  str_replace_go old new 0 s.

(** [s.split(sep)] for a one-character separator *)
Fixpoint str_split_go (sep : ascii) (cur : string) (s : string) : list string :=
  match s with
  | EmptyString => [String.rev cur]
  | String a s' =>
      if Ascii.eqb a sep then String.rev cur :: str_split_go sep EmptyString s'
      else str_split_go sep (String a cur) s'
  end.

Definition str_split (s : string) (sep : ascii) : list string :=
  str_split_go sep EmptyString s.

Section Values.
Context `{RT : PyRuntime}.

(** [str(x)] *)
Definition py_str (x : pyval) : string :=
  match x with
  | PNone => "None"
  | PBool true => "True"
  | PBool false => "False"
  | PInt z => pretty z
  | PFloat f => float_repr f
  | PStr s => s
  | PNaT => "NaT"
  | PObj shown => shown
  end.

(** [pd.isna(x)] on a scalar *)
Definition pd_isna (x : pyval) : bool :=
  match x with
  | PNone | PNaT => true
  | PFloat f => float_is_nan f
  | _ => false
  end.

(** [float(str(v).strip())]; [None] stands for the exception *)
Definition float_of_cell (v : pyval) : option float :=
  float_of_string (str_strip (py_str v)).

End Values.

(** ** pandas data frames *)

(** The dtypes of the columns that [pd.read_excel] builds. *)
Inductive dtype := int64 | float64 | bool_ | datetime64 | object_.

Global Instance dtype_eq_dec : EqDecision dtype.
Proof. solve_decision. Defined.

(** The frame as [pd.read_excel] returns it: header cells of any type and,
    for every column, the dtype that pandas chose for it. *)
Record RawFrame := {
  raw_columns : list pyval;
  raw_dtypes : list dtype;
  raw_rows : list (list pyval);
}.

(** The frame after line 252: every label is a str.  Frames are rectangular
    (each row has one cell per label, each label one dtype); the row index is
    not modelled. *)
Record DataFrame := {
  columns : list string;
  dtypes : list dtype;
  rows : list (list pyval);
}.

Definition row_at (r : list pyval) (i : nat) : pyval := default PNone (r !! i).

(** The dtype of the column at position [i]. *)
Definition dtype_at (df : DataFrame) (i : nat) : dtype := default object_ (dtypes df !! i).

(** The positions at which the label [c] occurs, counting from [i]. *)
Fixpoint label_positions_from (i : nat) (cols : list string) (c : string) : list nat :=
  match cols with
  | [] => []
  | c' :: cols' =>
      if String.eqb c' c then i :: label_positions_from (S i) cols' c
      else label_positions_from (S i) cols' c
  end.

Definition label_positions (cols : list string) (c : string) : list nat :=
  label_positions_from 0 cols c.

(** [c in df.columns] *)
Definition has_column (df : DataFrame) (c : string) : bool :=
  bool_decide (c ∈ columns df).

(** What [Series.apply(f)] returns for a predicate [f]: a Series of dtype
    bool with the answers; or, on a Series without elements, where [apply]
    calls nothing, an empty Series of the dtype of the column itself. *)
Inductive Mask :=
| BoolMask (answers : list bool)
| EmptySeries (d : dtype).

(** [df[key]] followed by [Series.apply(f)].  A label that no column carries
    is a KeyError; a label carried by several columns makes [df[key]] a frame,
    whose [apply] hands whole columns to [f], and [if pd.isna(x)] on a column
    raises ValueError. *)
Definition getitem_apply (df : DataFrame) (key : option string)
    (f : pyval → bool) : result Mask :=
  match key with
  | None => Raise (Exn "KeyError" "None")
  | Some c =>
      match label_positions (columns df) c with
      | [] => Raise (Exn "KeyError" c)
      | [i] =>
          match rows df, dtype_at df i with
          | [], bool_ => Ok (BoolMask [])
          | [], d => Ok (EmptySeries d)
          | rs, _ => Ok (BoolMask (map (λ r, f (row_at r i)) rs))
          end
      | _ :: _ :: _ =>
          Raise (Exn "ValueError" "The truth value of a Series is ambiguous.")
      end
  end.

(** The rows that a boolean Series aligned with the rows marks. *)
Fixpoint getitem_mask_rows (rs : list (list pyval)) (mask : list bool) : list (list pyval) :=
  match rs, mask with
  | r :: rs', b :: mask' =>
      if b then r :: getitem_mask_rows rs' mask' else getitem_mask_rows rs' mask'
  | _, _ => []
  end.

(** [df[labels]] for a list of labels: every column carrying each label, in
    the order of [labels]. *)
Definition getitem_cols (df : DataFrame) (labels : list string) : DataFrame :=
  let pos := labels ≫= label_positions (columns df) in
  {| columns := map (λ i, default "" (columns df !! i)) pos;
     dtypes := map (dtype_at df) pos;
     rows := map (λ r, map (row_at r) pos) (rows df) |}.

(** [df[mask]] for the Series that [apply] returned.  A Series of dtype bool
    selects the rows it marks.  An empty Series of another dtype is not a
    boolean indexer: pandas reads it as a list of labels, here of no label,
    and the result has no column. *)
Definition getitem_mask (df : DataFrame) (mask : Mask) : DataFrame :=
  match mask with
  | BoolMask answers =>
      {| columns := columns df; dtypes := dtypes df;
         rows := getitem_mask_rows (rows df) answers |}
  | EmptySeries _ => getitem_cols df []
  end.

(** [df.head(n)] *)
Definition df_head (n : nat) (df : DataFrame) : DataFrame :=
  {| columns := columns df; dtypes := dtypes df; rows := take n (rows df) |}.

(** [len(df)] *)
Definition df_len (df : DataFrame) : nat := length (rows df).

(** [df.empty] *)
Definition df_empty (df : DataFrame) : bool :=
  match rows df, columns df with
  | [], _ | _, [] => true
  | _, _ => false
  end.

(** [df.insert(0, label, range(1, len(df) + 1))] *)
Definition df_insert_counter (label : string) (df : DataFrame) : result DataFrame :=
  if has_column df label
  then Raise (Exn "ValueError" ("cannot insert " +:+ label +:+ ", already exists"))
  else Ok {| columns := label :: columns df;
             dtypes := int64 :: dtypes df;
             rows := imap (λ i r, PInt (Z.of_nat (S i)) :: r) (rows df) |}.

(** The dtype that holds the values of two dtypes (pandas' [find_common_type]):
    int64 and float64 meet in float64, any other two different dtypes in
    object. *)
Definition dtype_join (a b : dtype) : dtype :=
  if decide (a = b) then a
  else match a, b with
       | int64, float64 | float64, int64 => float64
       | _, _ => object_
       end.

(** The dtype of [df.values]: the one that holds the values of every column
    (float64 for a frame without columns). *)
Definition values_dtype (df : DataFrame) : dtype :=
  match dtypes df with
  | [] => float64
  | d :: ds => foldl dtype_join d ds
  end.

(** The cast of a cell to the dtype of [df.values]: an int becomes a float
    among float64 values, and nothing else changes. *)
Definition astype (d : dtype) (v : pyval) : pyval :=
  match d, v with
  | float64, PInt z => PFloat (float_of_int z)
  | _, _ => v
  end.

(** [df.iterrows()]: every row as a Series of the dtype of [df.values]. *)
Definition iterrows (df : DataFrame) : list (list pyval) :=
  map (map (astype (values_dtype df))) (rows df).

(** [row.iloc[k]] *)
Definition iloc (r : list pyval) (k : nat) : result pyval :=
  match r !! k with
  | Some v => Ok v
  | None => Raise (Exn "IndexError" "single positional indexer is out-of-bounds")
  end.

(** ** openpyxl workbooks *)

Record Font := { font_name : string; font_size : option nat; font_bold : bool }.

(** A cell: its value and the style attributes the script sets. *)
Record Cell := {
  cell_value : pyval;
  cell_font : option Font;
  cell_centered : bool;   (* Alignment(horizontal="center", vertical="center") *)
  cell_border : bool;     (* thin black border on the four sides *)
}.

Definition empty_cell : Cell :=
  {| cell_value := PNone; cell_font := None; cell_centered := false; cell_border := false |}.

Record Worksheet := {
  ws_title : string;
  ws_cells : gmap (nat * nat) Cell;             (* keyed by (row, column), from 1 *)
  ws_merged : list (nat * nat * nat * nat);     (* start row, start column, end row, end column *)
  ws_row_height : gmap nat nat;
  ws_column_width : gmap string nat;            (* keyed by column letter *)
}.

Definition Workbook : Type := list Worksheet.

(** The sheet of a fresh [Workbook()]. *)
Definition new_sheet : Worksheet :=
  {| ws_title := "Sheet"; ws_cells := ∅; ws_merged := [];
     ws_row_height := ∅; ws_column_width := ∅ |}.

Definition set_title (t : string) (ws : Worksheet) : Worksheet :=
  {| ws_title := t; ws_cells := ws_cells ws; ws_merged := ws_merged ws;
     ws_row_height := ws_row_height ws; ws_column_width := ws_column_width ws |}.

(** The cell that the sheet holds at [(r, c)], an empty cell when it holds
    none there. *)
Definition ws_cell (ws : Worksheet) (r c : nat) : Cell :=
  default empty_cell (ws_cells ws !! (r, c)).

(** [ws.cell(row=r, column=c)]: rows and columns count from 1, and a smaller
    one is a ValueError; otherwise the cell, created empty when it is not
    there. *)
Definition ws_cell_call (ws : Worksheet) (r c : nat) : result Cell :=
  if (r <? 1) || (c <? 1)
  then Raise (Exn "ValueError" "Row or column values must be at least 1")
  else Ok (ws_cell ws r c).

(** [ws.cell(row=r, column=c)] followed by the update [f] of the cell, which
    is created first when needed.  The export calls it from row 1 and column
    1 on only, where [ws.cell] raises nothing. *)
Definition ws_touch (r c : nat) (f : Cell → Cell) (ws : Worksheet) : Worksheet :=
  {| ws_title := ws_title ws;
     ws_cells := <[(r, c) := f (ws_cell ws r c)]> (ws_cells ws);
     ws_merged := ws_merged ws;
     ws_row_height := ws_row_height ws; ws_column_width := ws_column_width ws |}.

(** [ws.cell(row, column, value=v)] assigns the value unless it is None. *)
Definition put_value (v : pyval) (c : Cell) : Cell :=
  match v with
  | PNone => c
  | _ => {| cell_value := v; cell_font := cell_font c;
            cell_centered := cell_centered c; cell_border := cell_border c |}
  end.

Definition put_font (f : Font) (c : Cell) : Cell :=
  {| cell_value := cell_value c; cell_font := Some f;
     cell_centered := cell_centered c; cell_border := cell_border c |}.

Definition put_center (c : Cell) : Cell :=
  {| cell_value := cell_value c; cell_font := cell_font c;
     cell_centered := true; cell_border := cell_border c |}.

Definition put_border (c : Cell) : Cell :=
  {| cell_value := cell_value c; cell_font := cell_font c;
     cell_centered := cell_centered c; cell_border := true |}.

(** The positions of the range from [(r1, c1)] to [(r2, c2)], row by row. *)
Definition range_cells (r1 c1 r2 c2 : nat) : list (nat * nat) :=
  r ← seq r1 (r2 + 1 - r1); c ← seq c1 (c2 + 1 - c1); [(r, c)].

(** [ws.merge_cells(start_row=r1, start_column=c1, end_row=r2, end_column=c2)]:
    the range is recorded, its first cell is created when it is not there,
    and every other position of the range gets a [MergedCell] placeholder in
    place of what it held: a cell without a value.  A placeholder on the rim
    takes over the border sides of the first cell; that cell has no border
    when the export merges, and the export assigns nothing to a placeholder
    afterwards. *)
Definition merge_cells (r1 c1 r2 c2 : nat) (ws : Worksheet) : Worksheet :=
  let place m rc :=
    if decide (rc = (r1, c1)) then <[rc := ws_cell ws r1 c1]> m
    else <[rc := empty_cell]> m in
  {| ws_title := ws_title ws;
     ws_cells := foldl place (ws_cells ws) (range_cells r1 c1 r2 c2);
     ws_merged := ws_merged ws ++ [(r1, c1, r2, c2)];
     ws_row_height := ws_row_height ws; ws_column_width := ws_column_width ws |}.

Definition set_row_height (r h : nat) (ws : Worksheet) : Worksheet :=
  {| ws_title := ws_title ws; ws_cells := ws_cells ws; ws_merged := ws_merged ws;
     ws_row_height := <[r := h]> (ws_row_height ws);
     ws_column_width := ws_column_width ws |}.

Definition set_column_width (letter : string) (w : nat) (ws : Worksheet) : Worksheet :=
  {| ws_title := ws_title ws; ws_cells := ws_cells ws; ws_merged := ws_merged ws;
     ws_row_height := ws_row_height ws;
     ws_column_width := <[letter := w]> (ws_column_width ws) |}.

(** [wb.sheetnames] *)
Definition sheetnames (wb : Workbook) : list string := map ws_title wb.

(** [wb[name]] *)
Definition wb_getitem (wb : Workbook) (name : string) : result Worksheet :=
  match List.find (λ ws, String.eqb (ws_title ws) name) wb with
  | Some ws => Ok ws
  | None => Raise (Exn "KeyError" ("Worksheet " +:+ name +:+ " does not exist."))
  end.

Definition ascii_upper (a : ascii) : ascii :=
  let n := nat_of_ascii a in
  if ((97 <=? n) && (n <=? 122))%nat then ascii_of_nat (n - 32) else a.

(** The value of a column letter: A is 1, Z is 26. *)
Definition letter_value (a : ascii) : option nat :=
  let n := nat_of_ascii (ascii_upper a) in
  if ((65 <=? n) && (n <=? 90))%nat then Some (n - 64) else None.

Fixpoint letters_value (acc : nat) (s : string) : option nat :=
  match s with
  | EmptyString => Some acc
  | String a s' =>
      match letter_value a with
      | Some v => letters_value (acc * 26 + v) s'
      | None => None
      end
  end.

(** [column_index_from_string]: one to three letters, A = 1 up to ZZZ = 18278. *)
Definition column_index_from_string (s : string) : result nat :=
  let bad := Raise (Exn "ValueError" (s +:+ " is not a valid column name")) in
  if ((1 <=? String.length s) && (String.length s <=? 3))%nat then
    match letters_value 0 s with
    | Some n => Ok n
    | None => bad
    end
  else bad.

Fixpoint column_letters (fuel idx : nat) : string :=
  match fuel with
  | O => ""
  | S fuel' =>
      if (idx =? 0)%nat then ""
      else column_letters fuel' ((idx - 1) / 26)
             +:+ String (ascii_of_nat (65 + (idx - 1) mod 26)) ""
  end.

(** [get_column_letter] *)
Definition get_column_letter (idx : nat) : result string :=
  if (1 <=? idx) && (Z.of_nat idx <=? 18278)%Z then Ok (column_letters 3 idx)
  else Raise (Exn "ValueError" ("Invalid column index " +:+ pretty idx)).

(** ** reportlab documents *)

Inductive Flowable :=
| Paragraph (text style : string)
| Spacer (width height : nat)
| Table (data : list (list pyval)) (repeat_rows : nat).

Definition PdfDoc : Type := list Flowable.

(** ** The script monad: file-system accesses and Streamlit calls *)

(** What a download button serves. *)
Inductive FileData :=
| XlsxData (wb : Workbook)
| PdfData (doc : PdfDoc).

Inductive event :=
| os_makedirs (path : string)
| os_listdir (path : string)
| pd_read_excel (path : string)
| openpyxl_load_workbook (path : string)
| st_set_page_config (page_title : string)
| st_markdown (body : string)
| st_header (body : string)
| st_error (body : string)
| st_warning (body : string)
| st_info (body : string)
| st_success (body : string)
| st_selectbox (label : string) (options : list string)
| st_dataframe (data : DataFrame) (height : nat)
| st_download_button (label : string) (data : FileData) (file_name mime : string)
| st_stop.

(** How a run of the script ends: it reached the value [a], it called
    [st.stop()], or an exception went uncaught. *)
Inductive outcome (A : Type) :=
| Done (a : A)
| Stopped
| Crashed (e : exn).
Arguments Done {A} a.
Arguments Stopped {A}.
Arguments Crashed {A} e.

Definition script (A : Type) : Type := list event * outcome A.

Global Instance script_ret : MRet script := λ A a, ([], Done a).
Global Instance script_bind : MBind script := λ A B f m,
  match m with
  | (tr, Done a) => let '(tr', o) := f a in (tr ++ tr', o)
  | (tr, Stopped) => (tr, Stopped)
  | (tr, Crashed e) => (tr, Crashed e)
  end.

Definition emit (e : event) : script unit := ([e], Done tt).
Definition stop {A} : script A := ([st_stop], Stopped).
Definition crash {A} (e : exn) : script A := ([], Crashed e).

(** An exception that nothing catches ends the run. *)
Definition uncaught {A} (r : result A) : script A :=
  match r with Ok a => mret a | Raise e => crash e end.

Definition trace {A} (m : script A) : list event := m.1.

(** ** What a run of the script reads from outside *)

Record World := {
  (** [os.listdir("./data")] *)
  listdir : list string;
  (** [pd.read_excel(path, sheet_name=0, header=1, usecols="A:AG", engine="openpyxl")] *)
  read_excel : string → result RawFrame;
  (** [load_workbook(path, data_only=True)] *)
  load_workbook : string → result Workbook;
  (** the position the user picked in the file selectbox *)
  file_pick : nat;
  (** the position the user picked in the subject selectbox *)
  subject_pick : nat;
}.

(** [st.selectbox(label, options)]: the option at the picked position, the
    first option when that position does not exist, None without options. *)
Definition selectbox_value (options : list string) (pick : nat) : pyval :=
  match options !! pick, options with
  | Some x, _ => PStr x
  | None, x :: _ => PStr x
  | None, [] => PNone
  end.

Inductive sheet_ref :=
| SheetIndex (i : nat)
| SheetTitle (s : string).

(** [enumerate(xs, start)] *)
Fixpoint enumerate {A} (start : nat) (xs : list A) : list (nat * A) :=
  match xs with
  | [] => []
  | x :: xs' => (start, x) :: enumerate (S start) xs'
  end.

(** A [for] loop whose body may raise. *)
Fixpoint for_each {A S} (body : S → A → result S) (s : S) (l : list A) : result S :=
  match l with
  | [] => Ok s
  | x :: l' => s' ← body s x; for_each body s' l'
  end.

(** Python dict built by inserting the pairs from left to right. *)
Definition dict_of_pairs {V} (kvs : list (string * V)) : gmap string V :=
  foldl (λ m kv, <[kv.1 := kv.2]> m) ∅ kvs.

Definition nl : string := String (ascii_of_nat 10) "".

(** ** Fixed settings *)

Definition DATA_DIR : string := "./data".
Definition SHEET_NAME : sheet_ref := SheetIndex 0.
Definition HEADER_ROW_INDEX : nat := 1.
Definition USECOLS_RANGE : string := "A:AG".
Definition TARGET_SUM_ROW : nat := 174.

Definition CANDIDATE_CLASS_COLS : list string := ["반"; "학급"; "Class"].
Definition CANDIDATE_NO_COLS : list string := ["번호"; "번"; "No"].
Definition CANDIDATE_NAME_COLS : list string := ["이름"; "성명"; "Name"].

Definition PREFERRED_FONTS : list string := ["Apple SD Gothic Neo"; "Malgun Gothic"].

(** ** Texts of the page *)

Definition PAGE_TITLE : string := "주차별 학생 신청 과목 조회".
Definition SIDEBAR_HEADER : string := "선택".
Definition LABEL_FILE : string := "① 주차별 선택".
Definition LABEL_SUBJECT : string := "② 과목 선택".
Definition MSG_NO_FILES : string :=
  "`data/` 폴더에 주차별 엑셀을 넣어주세요. 예: 10월3주차.xlsx, 10월4주차.xlsx".
Definition MSG_LOAD_FAILED : string := "엑셀 로드 실패: ".
Definition MSG_NO_SUBJECTS : string :=
  "필터 가능한 컬럼이 없습니다. (반/번호/이름 제외 + 174행 합계==0 제외) — 임시로 전체 컬럼을 노출합니다. 174행 합계/헤더 확인 필요.".
Definition MSG_NO_DISPLAY_COLS : string :=
  "표시할 컬럼(반/번호/이름)을 찾지 못했습니다. 엑셀 헤더를 확인해주세요.".
Definition MSG_DONE : string :=
  "사이드바에서 주차/과목 선택 → 메인에서 미리보기 → 엑셀(출석부) 저장 가능합니다.".
Definition LABEL_DOWNLOAD : string := "엑셀 다운로드".
Definition XLSX_MIME : string :=
  "application/vnd.openxmlformats-officedocument.spreadsheetml.sheet".

Section App.
Context `{RT : PyRuntime}.

(** *** Utilities *)

Definition normalize_text (s : pyval) : string :=
  match s with
  | PNone => ""
  | _ => unicodedata_nfc (py_str s)
  end.

(** [{str(c).lower(): c for c in df_cols}] *)
Definition lower_cols_of (df_cols : list string) : gmap string string :=
  dict_of_pairs (map (λ c, (str_lower c, c)) df_cols).

(** The first loop of [find_col]: exact match. *)
Fixpoint find_col_exact (lower_cols : gmap string string) (candidates : list string)
    : option string :=
  match candidates with
  | [] => None
  | cand :: rest =>
      let k := str_lower cand in
      match lower_cols !! k with
      | Some c => Some c
      | None => find_col_exact lower_cols rest
      end
  end.

(** The second loop of [find_col]: partial match. *)
Fixpoint find_col_partial (df_cols candidates : list string) : option string :=
  match candidates with
  | [] => None
  | cand :: rest =>
      match List.find (re_search_icase cand) df_cols with
      | Some c => Some c
      | None => find_col_partial df_cols rest
      end
  end.

Definition find_col (df_cols candidates : list string) : option string :=
  let lower_cols := lower_cols_of df_cols in
  match find_col_exact lower_cols candidates with
  | Some c => Some c
  | None => find_col_partial df_cols candidates
  end.

Definition is_one (x : pyval) : bool :=
  if pd_isna x then false
  else match float_of_cell x with
       | Some f => float_eq f float_one
       | None => false
       end.

(** The sheet that [read_excel_row_values_for_headers] reads. *)
Definition select_sheet (wb : Workbook) (sheet_name : sheet_ref) : result Worksheet :=
  let nth_sheet i :=
    match sheetnames wb !! i with
    | Some name => wb_getitem wb name
    | None => Raise (Exn "IndexError" "list index out of range")
    end in
  match sheet_name with
  | SheetIndex i => nth_sheet i
  | SheetTitle s =>
      if bool_decide (s ∈ sheetnames wb) then wb_getitem wb s else nth_sheet 0
  end.

(** [start_letter, end_letter = usecols_range.split(":")] *)
Definition split_range (usecols_range : string) : result (string * string) :=
  match str_split usecols_range ":" with
  | [a; b] => Ok (a, b)
  | [] | [_] => Raise (Exn "ValueError" "not enough values to unpack (expected 2)")
  | _ => Raise (Exn "ValueError" "too many values to unpack (expected 2)")
  end.

(** The body of the [for col_idx] loop: the cell as a float, 0.0 when the
    conversion raises. *)
Definition cell_number (v : pyval) : float :=
  match float_of_cell v with
  | Some v_num => v_num
  | None => float_zero
  end.

(** Lines 93 to 107, on the worksheet already selected. *)
Definition row_values_for_headers (ws : Worksheet) (usecols_range : string)
    (target_row : nat) (headers : list string) : result (gmap string float) :=
  '(start_letter, end_letter) ← split_range usecols_range;
  start_idx ← column_index_from_string start_letter;
  end_idx ← column_index_from_string end_letter;
  vals ← mapM (λ col_idx, cell ← ws_cell_call ws target_row col_idx;
                           Ok (cell_number (cell_value cell)))
               (seq start_idx (end_idx + 1 - start_idx));
  let n := min (length headers) (length vals) in
  Ok (dict_of_pairs
        (map (λ i, (default "" (headers !! i), default float_zero (vals !! i)))
             (seq 0 n))).

Definition read_excel_row_values_for_headers (w : World) (xlsx_path : string)
    (sheet_name : sheet_ref) (usecols_range : string) (target_row : nat)
    (headers : list string) : script (gmap string float) :=
  emit (openpyxl_load_workbook xlsx_path);;
  wb ← uncaught (load_workbook w xlsx_path);
  ws ← uncaught (select_sheet wb sheet_name);
  uncaught (row_values_for_headers ws usecols_range target_row headers).

Definition choose_font_name : string :=
  match PREFERRED_FONTS with
  | name :: _ => name
  | [] => "Arial"
  end.

(** *** The Excel export *)

Definition excel_headers : list string :=
  ["순번"; "반"; "번호"; "이름"; "월"; "화"; "수"; "목"; "금"].

Definition excel_widths : list (nat * nat) :=
  [(1, 6); (2, 6); (3, 6); (4, 16); (5, 6); (6, 6); (7, 6); (8, 6); (9, 6)].

(** The title of row 1. *)
Definition excel_title (file_choice : string) (filter_col : pyval) : string :=
  let title_text :=
    str_strip (str_replace file_choice ".xlsx" "" +:+ " " +:+ py_str filter_col) in
  normalize_text (PStr title_text).

(** The body of the header loop. *)
Definition write_header_cell (font_name : string) (header_row : nat)
    (ws : Worksheet) (ih : nat * string) : Worksheet :=
  let '(idx, h) := ih in
  let ws := ws_touch header_row idx (put_value (PStr h)) ws in
  let ws := ws_touch header_row idx
              (put_font {| font_name := font_name; font_size := None; font_bold := true |}) ws in
  ws_touch header_row idx put_center ws.

(** The body of the data loop, for a row as [iterrows] yields it;
    [row.iloc[k]] raises IndexError on a row with fewer than [k + 1] cells. *)
Definition write_data_row (font_name : string) (start_row : nat)
    (ws : Worksheet) (irow : nat * list pyval) : result Worksheet :=
  let '(i, row) := irow in
  let r := start_row + i - 1 in
  let plain := {| font_name := font_name; font_size := None; font_bold := false |} in
  let ws := ws_touch r 1 (put_font plain) (ws_touch r 1 (put_value (PInt (Z.of_nat i))) ws) in
  v0 ← iloc row 0;
  let ws := ws_touch r 2 (put_font plain) (ws_touch r 2 (put_value v0) ws) in
  v1 ← iloc row 1;
  let ws := ws_touch r 3 (put_font plain) (ws_touch r 3 (put_value v1) ws) in
  v2 ← iloc row 2;
  let ws := ws_touch r 4 (put_font plain) (ws_touch r 4 (put_value v2) ws) in
  Ok (foldl (λ ws c, ws_touch r c (put_font plain) ws) ws (seq 5 5)).

Definition excel_end_row (header_row start_row len : nat) : nat :=
  let last_row := if 0 <? len then start_row + len - 1 else header_row in
  max header_row last_row.

(** The workbook that [wb.save] serialises; the bytes themselves are
    openpyxl's business. *)
Definition build_formatted_excel (df_view : DataFrame) (file_choice : string)
    (filter_col : pyval) : result Workbook :=
  let title := excel_title file_choice filter_col in
  let headers := excel_headers in
  let n_cols := length headers in
  let font_name := choose_font_name in
  let ws := set_title "필터결과" new_sheet in
  (* title (row 1) *)
  let ws := ws_touch 1 1 (put_value (PStr title)) ws in
  let ws := merge_cells 1 1 1 n_cols ws in
  let ws := ws_touch 1 1
              (put_font {| font_name := font_name; font_size := Some 16; font_bold := true |}) ws in
  let ws := ws_touch 1 1 put_center ws in
  let ws := set_row_height 1 28 ws in
  let ws := set_row_height 2 6 ws in
  (* headers (row 3) *)
  let header_row := 3 in
  let ws := foldl (write_header_cell font_name header_row) ws (enumerate 1 headers) in
  (* data (row 4 on) *)
  let start_row := header_row + 1 in
  ws ← for_each (write_data_row font_name start_row) ws (enumerate 1 (iterrows df_view));
  (* borders and alignment *)
  let end_row := excel_end_row header_row start_row (df_len df_view) in
  let ws :=
    foldl (λ ws r,
             foldl (λ ws c, ws_touch r c put_center (ws_touch r c put_border ws))
                   ws (seq 1 n_cols))
          ws (seq header_row (end_row + 1 - header_row)) in
  (* column widths and row heights *)
  ws ← for_each (λ ws cw, letter ← get_column_letter cw.1;
                          Ok (set_column_width letter cw.2 ws))
                ws excel_widths;
  let ws := foldl (λ ws r, set_row_height r 20 ws) ws
                  (seq header_row (end_row + 1 - header_row)) in
  Ok [ws].

(** *** The PDF export *)

(** [now] is [datetime.now().strftime("%Y-%m-%d %H:%M")]. *)
Definition build_pdf (now : string) (df_result : DataFrame) (file_choice : string)
    (filter_col : pyval) : PdfDoc :=
  let title :=
    Paragraph ("필터 결과 (" +:+ normalize_text filter_col +:+ " == 1) — "
                 +:+ normalize_text (PStr file_choice)) "Title" in
  [title; Spacer 1 12]
  ++ (if df_empty df_result
      then [Paragraph "표시할 데이터가 없습니다." "Normal"]
      else [Table (map PStr (columns df_result) :: rows df_result) 1])
  ++ [Spacer 1 12; Paragraph now "Normal"].

(** *** The script, top to bottom *)

Definition page_css : string :=
  nl +:+ "<style>" +:+ nl
  +:+ ".block-container { padding-top: 1.6rem; }  /* 본문 상단 여백 증가 */" +:+ nl
  +:+ "h1, .stMarkdown h1 { margin-top: 0.2rem; } /* 제목 상단 마진 보정 */" +:+ nl
  +:+ "</style>" +:+ nl.

Definition table_css : string :=
  nl +:+ "<style>" +:+ nl
  +:+ "/* st.dataframe 내 thead/tbody 가운데 정렬(폴백) */" +:+ nl
  +:+ "thead tr th { text-align: center !important; }" +:+ nl
  +:+ "tbody tr td { text-align: center !important; }" +:+ nl
  +:+ "</style>" +:+ nl.

(** Lines 38 to 46. *)
Definition page_setup : script unit :=
  emit (st_set_page_config PAGE_TITLE);;
  emit (st_markdown page_css).

(** Line 225: the names that end in .xlsx or .xls once lowercased. *)
Definition is_excel_name (f : string) : bool :=
  str_endswith (str_lower f) ".xlsx" || str_endswith (str_lower f) ".xls".

(** [sorted(excel_files)]: strings in ascending order.  Python compares code
    points; on UTF-8 text that is the order of the bytes. *)
Definition sorted (l : list string) : list string := merge_sort String.le l.

Definition excel_files_sorted (w : World) : list string :=
  let excel_files := List.filter is_excel_name (listdir w) in
  sorted excel_files.

(** Lines 224 to 233: the sidebar's file choice. *)
Definition choose_file (w : World) : script string :=
  emit (os_makedirs DATA_DIR);;
  emit (os_listdir DATA_DIR);;
  emit (st_header SIDEBAR_HEADER);;
  match excel_files_sorted w with
  | [] =>
      emit (st_error MSG_NO_FILES);;
      stop
  | (first :: _) as options =>
      emit (st_selectbox LABEL_FILE options);;
      mret (default first (options !! file_pick w))
  end.

(** [os.path.join(DATA_DIR, file_choice)] for a directory entry. *)
Definition os_path_join (dir name : string) : string := dir +:+ "/" +:+ name.

(** Lines 240 to 252: load the sheet, or report the failure and stop. *)
Definition load_data (w : World) (selected_path : string) : script DataFrame :=
  emit (pd_read_excel selected_path);;
  match read_excel w selected_path with
  | Raise e =>
      emit (st_error (MSG_LOAD_FAILED +:+ exn_str e));;
      stop
  | Ok df =>
      mret {| columns := map (λ c, str_strip (py_str c)) (raw_columns df);
              dtypes := raw_dtypes df;
              rows := raw_rows df |}
  end.

(** Line 262. *)
Definition blocked_cols (cols : list string) : gset string :=
  list_to_set
    (omap id [find_col cols CANDIDATE_CLASS_COLS;
              find_col cols CANDIDATE_NO_COLS;
              find_col cols CANDIDATE_NAME_COLS]).

(** Line 271. *)
Definition zero_sum_cols (sum_map : gmap string float) : gset string :=
  dom (filter (λ kv, float_eq kv.2 float_zero = true) sum_map).

(** Line 273. *)
Definition filterable (cols : list string) (sum_map : gmap string float) : list string :=
  List.filter (λ c, bool_decide (c ∉ blocked_cols cols)
                    && bool_decide (c ∉ zero_sum_cols sum_map)) cols.

(** Lines 259 to 276: the subject columns on offer. *)
Definition filterable_cols (w : World) (selected_path : string) (df : DataFrame)
    : script (list string) :=
  sum_map_174 ← read_excel_row_values_for_headers w selected_path SHEET_NAME
                  USECOLS_RANGE TARGET_SUM_ROW (columns df);
  match filterable (columns df) sum_map_174 with
  | [] =>
      emit (st_warning MSG_NO_SUBJECTS);;
      mret (columns df)
  | cols => mret cols
  end.

(** Lines 281 to 283: the sidebar's subject choice. *)
Definition choose_subject (w : World) (options : list string) : script pyval :=
  emit (st_selectbox LABEL_SUBJECT options);;
  let filter_col := selectbox_value options (subject_pick w) in
  emit (st_info ("**" +:+ normalize_text filter_col +:+ "** 선택됨"));;
  mret filter_col.

(** Lines 288 and 289. *)
Definition page_title (file_choice : string) (filter_col : pyval) : script unit :=
  let title_text :=
    str_replace (normalize_text (PStr file_choice)) ".xlsx" "" +:+ " "
    +:+ normalize_text filter_col +:+ " 수강자 명단" in
  emit (st_markdown ("<h1 style='text-align:center;'>" +:+ title_text +:+ "</h1>")).

(** [find_col(...) or fallback]: None and the empty string are falsy. *)
Definition or_else (found : option string) (fallback : string) : string :=
  match found with
  | None | Some "" => fallback
  | Some c => c
  end.

(** Lines 294 and 295: the rows marked 1 in [filter_col]. *)
Definition rows_marked_one (df : DataFrame) (filter_col : pyval) : result DataFrame :=
  let key := match filter_col with PStr c => Some c | _ => None end in
  mask ← getitem_apply df key is_one;
  Ok (getitem_mask df mask).

(** Lines 297 to 301. *)
Definition display_cols (df_one : DataFrame) : list string :=
  let class_col := or_else (find_col (columns df_one) CANDIDATE_CLASS_COLS) "반" in
  let no_col := or_else (find_col (columns df_one) CANDIDATE_NO_COLS) "번호" in
  let name_col := or_else (find_col (columns df_one) CANDIDATE_NAME_COLS) "이름" in
  List.filter (has_column df_one) [class_col; no_col; name_col].

(** Lines 319 to 331: the height of the preview. *)
Definition calc_h (len : nat) : nat := min 900 (100 + 37 * max 5 len).

(** Lines 312 to 333: show the preview; the result is [df_view]. *)
Definition preview (df_one : DataFrame) : script DataFrame :=
  match display_cols df_one with
  | [] =>
      emit (st_warning MSG_NO_DISPLAY_COLS);;
      emit (st_dataframe (df_head 20 df_one) 320);;
      mret df_one
  | cols =>
      let df_view := getitem_cols df_one cols in
      df_display ← uncaught (df_insert_counter "순번" df_view);
      emit (st_dataframe df_display (calc_h (df_len df_display)));;
      mret df_view
  end.

(** Lines 294 to 333. *)
Definition filter_and_show (df : DataFrame) (filter_col : pyval) : script DataFrame :=
  df_one ← uncaught (rows_marked_one df filter_col);
  emit (st_markdown table_css);;
  preview df_one.

(** Lines 338 to 347: the download button. *)
Definition download (df_view : DataFrame) (file_choice : string) (filter_col : pyval)
    : script unit :=
  xlsx_bytes ← uncaught (build_formatted_excel df_view file_choice filter_col);
  emit (st_download_button LABEL_DOWNLOAD (XlsxData xlsx_bytes)
          (str_replace (normalize_text (PStr file_choice)) ".xlsx" "" +:+ "_"
             +:+ normalize_text filter_col +:+ ".xlsx")
          XLSX_MIME).

(** One run of app.py. *)
Definition main (w : World) : script unit :=
  page_setup;;
  file_choice ← choose_file w;
  let selected_path := os_path_join DATA_DIR file_choice in
  df ← load_data w selected_path;
  options ← filterable_cols w selected_path df;
  filter_col ← choose_subject w options;
  page_title file_choice filter_col;;
  df_view ← filter_and_show df filter_col;
  download df_view file_choice filter_col;;
  emit (st_success MSG_DONE).

End App.

(** ** A runtime for ASCII text

    [ascii_runtime] implements the runtime methods on strings whose cased
    letters, digits and blanks are ASCII; other bytes are left alone, which is
    what Python does to Hangul.  Text already in NFC is its own NFC. *)

Module Ascii_rt.

Definition lower_char (a : ascii) : ascii :=
  let n := nat_of_ascii a in
  if (65 <=? n) && (n <=? 90) then ascii_of_nat (n + 32) else a.

Fixpoint lower (s : string) : string :=
  match s with
  | EmptyString => EmptyString
  | String a s' => String (lower_char a) (lower s')
  end.

(** The blanks of [str.strip] below U+0080. *)
Definition is_space (a : ascii) : bool :=
  let n := nat_of_ascii a in
  ((9 <=? n) && (n <=? 13)) || ((28 <=? n) && (n <=? 32)).

Fixpoint lstrip (s : string) : string :=
  match s with
  | EmptyString => EmptyString
  | String a s' => if is_space a then lstrip s' else s
  end.

Definition strip (s : string) : string :=
  String.rev (lstrip (String.rev (lstrip s))).

(** Does [s] contain [pat], letters compared without case? *)
Fixpoint search (pat s : string) : bool :=
  str_startswith (lower s) (lower pat)
  || match s with
     | EmptyString => false
     | String _ s' => search pat s'
     end.

(** *** [float(s)] *)

Definition digit_of (a : ascii) : option Z :=
  let n := nat_of_ascii a in
  if (48 <=? n) && (n <=? 57) then Some (Z.of_nat (n - 48)) else None.

(** digitpart: digits, single underscores allowed between two digits.
    Returns the value read so far, the number of digits, and the rest. *)
Fixpoint digits_go (acc : Z) (count : nat) (s : string) : Z * nat * string :=
  match s with
  | String a s' =>
      match digit_of a with
      | Some d => digits_go (acc * 10 + d) (S count) s'
      | None =>
          if Ascii.eqb a "_" then
            match count, s' with
            | S _, String b s'' =>
                match digit_of b with
                | Some d => digits_go (acc * 10 + d) (S count) s''
                | None => (acc, count, s)
                end
            | _, _ => (acc, count, s)
            end
          else (acc, count, s)
      end
  | EmptyString => (acc, count, s)
  end.

Definition read_sign (s : string) : bool * string :=
  match s with
  | String "-" s' => (true, s')
  | String "+" s' => (false, s')
  | _ => (false, s)
  end.

(** [(-1)^neg * m * 10^e], rounded to the nearest binary64, ties to even. *)
Definition decimal_to_float (neg : bool) (m e : Z) : float :=
  if (m =? 0)%Z then S754_zero neg
  else if (0 <=? e)%Z
       then binary_normalize 53 1024 ((if neg then - m else m) * 10 ^ e)%Z 0 neg
       else match m, (10 ^ (- e))%Z with
            | Zpos pm, Zpos pd =>
                SFdiv 53 1024 (S754_finite neg pm 0) (S754_finite false pd 0)
            | _, _ => S754_nan
            end.

(** The optional exponent part; [None] when an [e] is not followed by a number. *)
Definition read_exponent (s : string) : option (Z * string) :=
  match s with
  | String a s' =>
      if Ascii.eqb (lower_char a) "e" then
        let '(neg, s1) := read_sign s' in
        match digits_go 0 0 s1 with
        | (_, O, _) => None
        | (v, S _, rest) => Some ((if neg then - v else v)%Z, rest)
        end
      else Some (0%Z, s)
  | EmptyString => Some (0%Z, s)
  end.

Definition parse_float (s : string) : option float :=
  let '(neg, body) := read_sign (strip s) in
  let low := lower body in
  if String.eqb low "inf" || String.eqb low "infinity" then Some (S754_infinity neg)
  else if String.eqb low "nan" then Some S754_nan
  else
    let '(ip, ni, s1) := digits_go 0 0 body in
    let '(m, nf, s2) :=
      match s1 with
      | String "." s1' =>
          let '(m, n, s2) := digits_go ip 0 s1' in (m, n, s2)
      | _ => (ip, 0, s1)
      end in
    match ni + nf with
    | O => None
    | S _ =>
        match read_exponent s2 with
        | Some (e, EmptyString) => Some (decimal_to_float neg m (e - Z.of_nat nf))
        | _ => None
        end
    end.

(** *** [repr(f)]: the exact decimal expansion of [f], which [float] reads
    back as [f] (Python prints the shortest such string). *)

Fixpoint zeros (n : nat) : string :=
  match n with O => "" | S n' => String "0" (zeros n') end.

Fixpoint drop_zeros (s : string) : string :=
  match s with
  | String "0" s' => drop_zeros s'
  | _ => s
  end.

Definition fraction_digits (num : Z) (k : nat) : string :=
  let d := pretty (num * 5 ^ Z.of_nat k)%Z in
  let padded := zeros (k - String.length d) +:+ d in
  match String.rev (drop_zeros (String.rev padded)) with
  | EmptyString => "0"
  | t => t
  end.

Definition repr (f : float) : string :=
  match f with
  | S754_zero neg => if neg then "-0.0" else "0.0"
  | S754_infinity neg => if neg then "-inf" else "inf"
  | S754_nan => "nan"
  | S754_finite neg m e =>
      (if neg then "-" else "") +:+
      match e with
      | Zneg k =>
          let p := (2 ^ Zpos k)%Z in
          pretty (Zpos m / p)%Z +:+ "." +:+ fraction_digits (Zpos m mod p) (Pos.to_nat k)
      | _ => pretty (Zpos m * 2 ^ e)%Z +:+ ".0"
      end
  end.

End Ascii_rt.

Definition ascii_runtime : PyRuntime :=
  {| str_lower := Ascii_rt.lower;
     str_strip := Ascii_rt.strip;
     re_search_icase := Ascii_rt.search;
     unicodedata_nfc := λ s, s;
     float_of_string := Ascii_rt.parse_float;
     float_repr := Ascii_rt.repr |}.

(** ** Vocabulary of the statements *)

Section Vocabulary.
Context `{RT : PyRuntime}.

(** Some column's lowercased label is the lowercased candidate. *)
Definition exact_hit (df_cols : list string) (cand : string) : Prop :=
  ∃ c, c ∈ df_cols ∧ str_lower c = str_lower cand.

(** [c] is the last column whose lowercased label is the lowercased candidate. *)
Definition exact_pick (df_cols : list string) (cand c : string) : Prop :=
  ∃ k, df_cols !! k = Some c ∧ str_lower c = str_lower cand ∧
       ∀ k' c', k < k' → df_cols !! k' = Some c' → str_lower c' ≠ str_lower cand.

(** Some column's label contains the candidate, case ignored. *)
Definition partial_hit (df_cols : list string) (cand : string) : Prop :=
  ∃ c, c ∈ df_cols ∧ re_search_icase cand c = true.

(** [c] is the first column whose label contains the candidate. *)
Definition partial_pick (df_cols : list string) (cand c : string) : Prop :=
  ∃ k, df_cols !! k = Some c ∧ re_search_icase cand c = true ∧
       ∀ k' c', k' < k → df_cols !! k' = Some c' → re_search_icase cand c' = false.

(** [cand] is the first candidate, in list order, with a hit. *)
Definition first_candidate (hit : string → Prop) (candidates : list string)
    (cand : string) : Prop :=
  ∃ i, candidates !! i = Some cand ∧ hit cand ∧
       ∀ j cand', j < i → candidates !! j = Some cand' → ¬ hit cand'.


End Vocabulary.




(** [s] ends with [suf]. *)
Definition ends_with (s suf : string) : Prop := ∃ p, s = p +:+ suf.

(** The file that the sidebar's first selectbox returns, when there is one. *)
Definition chosen_file `{RT : PyRuntime} (w : World) : option string :=
  match excel_files_sorted w with
  | [] => None
  | (first :: _) as options => Some (default first (options !! file_pick w))
  end.

(** Does the event open a spreadsheet file? *)
Definition is_file_access (e : event) : bool :=
  match e with
  | pd_read_excel _ | openpyxl_load_workbook _ => true
  | _ => false
  end.

(** The spreadsheet accesses of a run, in order. *)
Definition file_accesses (tr : list event) : list event :=
  List.filter is_file_access tr.

(** What the download buttons of a run serve. *)
Definition downloads (tr : list event) : list FileData :=
  omap (λ e, match e with
             | st_download_button _ d _ _ => Some d
             | _ => None
             end) tr.

(** The frames a run displayed. *)
Definition shown (tr : list event) : list DataFrame :=
  omap (λ e, match e with
             | st_dataframe d _ => Some d
             | _ => None
             end) tr.

Definition is_pdf (d : FileData) : bool :=
  match d with PdfData _ => true | XlsxData _ => false end.

Definition outcome_of {A} (m : script A) : outcome A := m.2.

(** ** Sample inputs *)

Definition plain_cell (v : pyval) : Cell :=
  {| cell_value := v; cell_font := None; cell_centered := false; cell_border := false |}.

(** A roster with three subjects; nobody applied for Music. *)
Definition roster : RawFrame :=
  {| raw_columns := [PStr "반"; PStr " 번호"; PStr "이름"; PStr "Math"; PStr "Art"; PStr "Music"];
     raw_dtypes := [int64; int64; object_; object_; object_; float64];
     raw_rows :=
       [ [PInt 1; PInt 1; PStr "Kim"; PInt 1; PFloat S754_nan; PFloat S754_nan];
         [PInt 1; PInt 2; PStr "Lee"; PStr " 1 "; PInt 1; PFloat S754_nan];
         [PInt 2; PInt 1; PStr "Park"; PFloat S754_nan; PFloat float_one; PFloat S754_nan];
         [PInt 2; PInt 2; PStr "Choi"; PFloat float_one; PInt 2; PFloat S754_nan] ] |}.

(** The roster once its labels are stripped (line 252). *)
Definition roster_frame : DataFrame :=
  {| columns := ["반"; "번호"; "이름"; "Math"; "Art"; "Music"];
     dtypes := raw_dtypes roster;
     rows := raw_rows roster |}.

(** Its sheet, of which only row 174 matters here. *)
Definition roster_sheet : Worksheet :=
  {| ws_title := "Sheet1";
     ws_cells := <[(174, 4) := plain_cell (PInt 3)]>
                   (<[(174, 5) := plain_cell (PInt 2)]>
                      (<[(174, 1) := plain_cell (PStr "sum")]> ∅));
     ws_merged := []; ws_row_height := ∅; ws_column_width := ∅ |}.

Definition sample_world : World :=
  {| listdir := ["week2.XLSX"; "notes.txt"; "week1.xlsx"];
     read_excel := λ p, if String.eqb p "./data/week1.xlsx" then Ok roster
                        else Raise (Exn "BadZipFile" "File is not a zip file");
     load_workbook := λ p, Ok [roster_sheet];
     file_pick := 0;
     subject_pick := 0 |}.

(** The same directory, with the unreadable file picked. *)
Definition broken_world : World :=
  {| listdir := listdir sample_world;
     read_excel := read_excel sample_world;
     load_workbook := load_workbook sample_world;
     file_pick := 1;
     subject_pick := 0 |}.

(** A directory without spreadsheets. *)
Definition empty_world : World :=
  {| listdir := ["notes.txt"; "xlsx"];
     read_excel := read_excel sample_world;
     load_workbook := load_workbook sample_world;
     file_pick := 0;
     subject_pick := 0 |}.

(** Twenty-one applicants in a sheet without class, number or name column. *)
Definition unnamed_frame : DataFrame :=
  {| columns := ["x"; "y"; "z"];
     dtypes := [int64; int64; int64];
     rows := replicate 21 [PInt 1; PInt 2; PInt 3] |}.


(** A view with the name column only. *)
Definition name_only_view : DataFrame :=
  {| columns := ["이름"]; dtypes := [object_]; rows := [[PStr "Kim"]] |}.







(** ** What a run tells the user *)

(** The events by which the page reports on the run: an error, the stop, the
    preview, the download button and the closing message. *)
Definition is_verdict (e : event) : bool :=
  match e with
  | st_error _ | st_stop | st_success _ | st_dataframe _ _
  | st_download_button _ _ _ _ => true
  | _ => false
  end.

Definition verdicts (tr : list event) : list event := List.filter is_verdict tr.

(** ** Further sample inputs *)

(** The sample directory, listed in another order. *)
Definition shuffled_world : World :=
  {| listdir := ["notes.txt"; "week2.XLSX"; "week1.xlsx"];
     read_excel := read_excel sample_world;
     load_workbook := load_workbook sample_world;
     file_pick := 0;
     subject_pick := 0 |}.

(** A directory whose workbook pandas reads and openpyxl then fails to open. *)
Definition locked_world : World :=
  {| listdir := ["week1.xlsx"];
     read_excel := λ _, Ok roster;
     load_workbook := λ _, Raise (Exn "PermissionError" "[Errno 13] Permission denied");
     file_pick := 0;
     subject_pick := 0 |}.


(** Applicants of a sheet whose number column is labelled 순번. *)
Definition numbered_frame : DataFrame :=
  {| columns := ["순번"; "이름"; "Math"];
     dtypes := [int64; object_; int64];
     rows := [[PInt 1; PStr "Kim"; PInt 1]] |}.

(** A workbook of two sheets. *)
Definition two_sheets : Workbook := [roster_sheet; set_title "Sheet2" new_sheet].


(** * Properties

    ** Dictionaries built by successive insertion *)

Section Dict.
Context {V : Type}.
Implicit Types (l : list (string * V)) (k : string) (v : V).

Lemma dict_of_pairs_snoc l k v :
  dict_of_pairs (l ++ [(k, v)]) = <[k:=v]> (dict_of_pairs l).
Proof. unfold dict_of_pairs. by rewrite foldl_app. Qed.

(** A key is bound to the value of its last pair. *)
Lemma dict_of_pairs_lookup_Some l k v :
  dict_of_pairs l !! k = Some v ↔
  ∃ i, l !! i = Some (k, v) ∧ ∀ j kv, i < j → l !! j = Some kv → kv.1 ≠ k.
Proof.
  induction l as [|[k' v'] l IH] using rev_ind.
  - split; [done|]. by intros (i & Hi & _).
  - rewrite dict_of_pairs_snoc, lookup_insert. case_decide as Hk; simplify_eq/=.
    + split.
      * intros [= ->]. exists (length l). split; [apply list_lookup_middle; done|].
        intros j kv Hj Hl. apply lookup_lt_Some in Hl. rewrite length_app in Hl. simpl in Hl. lia.
      * intros (i & Hi & Hlast). apply lookup_snoc_Some in Hi as [[Hlt Hi]|[-> Heq]]; [|congruence].
        exfalso. apply (Hlast (length l) (k, v')); [done| |done].
        by apply list_lookup_middle.
    + rewrite IH. split.
      * intros (i & Hi & Hlast). exists i. split; [by apply lookup_app_l_Some|].
        intros j kv Hj Hl. apply lookup_snoc_Some in Hl as [[_ Hl]|[_ <-]]; [by eapply Hlast|done].
      * intros (i & Hi & Hlast). apply lookup_snoc_Some in Hi as [[Hlt Hi]|[_ Heq]]; [|congruence].
        exists i. split; [done|]. intros j kv Hj Hl. eapply Hlast; [done|]. by apply lookup_app_l_Some.
Qed.

Lemma dict_of_pairs_lookup_None l k :
  dict_of_pairs l !! k = None ↔ k ∉ l.*1.
Proof.
  induction l as [|[k' v'] l IH] using rev_ind.
  - split; [|done]. intros _. apply not_elem_of_nil.
  - rewrite dict_of_pairs_snoc, lookup_insert, fmap_app, not_elem_of_app. simpl.
    case_decide as Hk; simplify_eq/=.
    + split; [done|]. intros [_ Hn]. exfalso. apply Hn. by left.
    + rewrite IH. split; [|tauto]. intros Hn. split; [done|].
      rewrite list_elem_of_singleton. congruence.
Qed.
End Dict.

(** ** Column detection *)

Section FindCol.
Context `{RT : PyRuntime}.
Implicit Types (df_cols candidates : list string) (c cand : string).

Lemma lower_cols_lookup_Some df_cols (k : string) c :
  lower_cols_of df_cols !! k = Some c ↔
  ∃ i, df_cols !! i = Some c ∧ str_lower c = k ∧
       ∀ j c', i < j → df_cols !! j = Some c' → str_lower c' ≠ k.
Proof.
  unfold lower_cols_of. rewrite dict_of_pairs_lookup_Some. split.
  - intros (i & Hi & Hlast). rewrite list_lookup_fmap in Hi.
    destruct (df_cols !! i) as [c0|] eqn:Hc0; simplify_eq/=.
    exists i. split_and!; [done..|]. intros j c' Hj Hc'.
    apply (Hlast j (str_lower c', c')); [done|]. by rewrite list_lookup_fmap, Hc'.
  - intros (i & Hi & <- & Hlast). exists i. split; [by rewrite list_lookup_fmap, Hi|].
    intros j [k' c'] Hj Hc'. rewrite list_lookup_fmap in Hc'.
    destruct (df_cols !! j) as [c0|] eqn:Hc0; simplify_eq/=. by eapply Hlast.
Qed.

Lemma lower_cols_lookup_None df_cols (k : string) :
  lower_cols_of df_cols !! k = None ↔ ∀ c, c ∈ df_cols → str_lower c ≠ k.
Proof.
  unfold lower_cols_of. rewrite dict_of_pairs_lookup_None, <-list_fmap_compose. split.
  - intros Hn c Hc Heq. apply Hn, list_elem_of_fmap. by exists c.
  - intros Hn (c & -> & Hc)%list_elem_of_fmap. by eapply Hn.
Qed.

Lemma lower_cols_exact_hit df_cols cand :
  exact_hit df_cols cand ↔ is_Some (lower_cols_of df_cols !! str_lower cand).
Proof.
  rewrite <-not_eq_None_Some, lower_cols_lookup_None. split.
  - intros (c & Hc & Heq) Hn. by eapply Hn.
  - intros Hn. destruct (decide (Exists (λ c, str_lower c = str_lower cand) df_cols)) as [He|He].
    + apply Exists_exists in He as (c & Hc & Heq). by exists c.
    + exfalso. apply Hn. intros c Hc Heq. apply He, Exists_exists. by exists c.
Qed.

Lemma find_col_exact_Some df_cols candidates c :
  find_col_exact (lower_cols_of df_cols) candidates = Some c →
  ∃ cand, first_candidate (exact_hit df_cols) candidates cand ∧ exact_pick df_cols cand c.
Proof.
  induction candidates as [|cand0 rest IH]; [done|]. simpl.
  destruct (lower_cols_of df_cols !! str_lower cand0) as [c0|] eqn:Hl.
  - intros [= ->]. exists cand0. split.
    + exists 0. split_and!; [done| |intros; lia]. apply lower_cols_exact_hit; eauto.
    + apply lower_cols_lookup_Some in Hl as (i & Hi & Heq & Hlast). by exists i.
  - intros (cand & (i & Hi & Hhit & Hfirst) & Hpick)%IH. exists cand. split; [|done].
    exists (S i). split_and!; [done..|]. intros [|j] cand' Hj Hc'; simplify_eq/=.
    + rewrite lower_cols_exact_hit, Hl. by intros [? ?].
    + eapply Hfirst; [|done]. lia.
Qed.

Lemma find_col_exact_None df_cols candidates :
  find_col_exact (lower_cols_of df_cols) candidates = None ↔
  ∀ cand, cand ∈ candidates → ¬ exact_hit df_cols cand.
Proof.
  induction candidates as [|cand0 rest IH]; simpl.
  - split; [|done]. intros _ cand Hc. by apply elem_of_nil in Hc.
  - destruct (lower_cols_of df_cols !! str_lower cand0) as [c0|] eqn:Hl.
    + split; [done|]. intros Hn. exfalso. apply (Hn cand0); [left|].
      apply lower_cols_exact_hit; eauto.
    + rewrite IH. split.
      * intros Hn cand [->|Hc]%elem_of_cons; [|by apply Hn].
        rewrite lower_cols_exact_hit, Hl. by intros [? ?].
      * intros Hn cand Hc. apply Hn. by right.
Qed.

(** [List.find] returns the first element that passes the test. *)
Lemma find_first {A} (f : A → bool) (l : list A) x :
  List.find f l = Some x ↔
  ∃ k, l !! k = Some x ∧ f x = true ∧ ∀ k' y, k' < k → l !! k' = Some y → f y = false.
Proof.
  induction l as [|a l IH]; simpl.
  - split; [done|]. by intros (k & Hk & _).
  - destruct (f a) eqn:Hfa.
    + split.
      * intros [= ->]. exists 0. split_and!; [done..|]. intros; lia.
      * intros ([|k] & Hk & Hx & Hfirst); simplify_eq/=; [done|].
        specialize (Hfirst 0 a). rewrite Hfa in Hfirst. discriminate Hfirst; [lia|done].
    + rewrite IH. split.
      * intros (k & Hk & Hx & Hfirst). exists (S k). split_and!; [done..|].
        intros [|k'] y Hlt Hy; simplify_eq/=; [done|]. eapply Hfirst; [|done]. lia.
      * intros ([|k] & Hk & Hx & Hfirst); simplify_eq/=; [congruence|].
        exists k. split_and!; [done..|]. intros k' y Hlt Hy. apply (Hfirst (S k')); [lia|done].
Qed.

Lemma find_none_iff {A} (f : A → bool) (l : list A) :
  List.find f l = None ↔ ∀ x, x ∈ l → f x = false.
Proof.
  induction l as [|a l IH]; simpl.
  - split; [|done]. intros _ x Hx. by apply elem_of_nil in Hx.
  - destruct (f a) eqn:Hfa.
    + split; [done|]. intros Hn. rewrite Hn in Hfa; [done|left].
    + rewrite IH. split.
      * intros Hn x [->|Hx]%elem_of_cons; auto.
      * intros Hn x Hx. apply Hn. by right.
Qed.

Lemma partial_hit_find df_cols cand :
  partial_hit df_cols cand ↔ is_Some (List.find (re_search_icase cand) df_cols).
Proof.
  rewrite <-not_eq_None_Some, find_none_iff. split.
  - intros (c & Hc & Hs) Hn. rewrite Hn in Hs; done.
  - intros Hn. destruct (List.find (re_search_icase cand) df_cols) as [c|] eqn:Hf.
    + apply find_first in Hf as (k & Hk & Hs & _). exists c. split; [|done].
      by eapply list_elem_of_lookup_2.
    + exfalso. apply Hn. by apply find_none_iff.
Qed.

Lemma find_col_partial_Some df_cols candidates c :
  find_col_partial df_cols candidates = Some c →
  ∃ cand, first_candidate (partial_hit df_cols) candidates cand ∧ partial_pick df_cols cand c.
Proof.
  induction candidates as [|cand0 rest IH]; [done|]. simpl.
  destruct (List.find (re_search_icase cand0) df_cols) as [c0|] eqn:Hf.
  - intros [= ->]. exists cand0. split.
    + exists 0. split_and!; [done| |intros; lia]. apply partial_hit_find. rewrite Hf; eauto.
    + by apply find_first in Hf.
  - intros (cand & (i & Hi & Hhit & Hfirst) & Hpick)%IH. exists cand. split; [|done].
    exists (S i). split_and!; [done..|]. intros [|j] cand' Hj Hc'; simplify_eq/=.
    + rewrite partial_hit_find, Hf. by intros [? ?].
    + eapply Hfirst; [|done]. lia.
Qed.

Lemma find_col_partial_None df_cols candidates :
  find_col_partial df_cols candidates = None ↔
  ∀ cand, cand ∈ candidates → ¬ partial_hit df_cols cand.
Proof.
  induction candidates as [|cand0 rest IH]; simpl.
  - split; [|done]. intros _ cand Hc. by apply elem_of_nil in Hc.
  - destruct (List.find (re_search_icase cand0) df_cols) as [c0|] eqn:Hf.
    + split; [done|]. intros Hn. exfalso. apply (Hn cand0); [left|].
      apply partial_hit_find. rewrite Hf; eauto.
    + rewrite IH. split.
      * intros Hn cand [->|Hc]%elem_of_cons; [|by apply Hn].
        rewrite partial_hit_find, Hf. by intros [? ?].
      * intros Hn cand Hc. apply Hn. by right.
Qed.

(** C2.  [find_col] answers in two phases.  If some candidate has a column
    whose lowercased label equals the lowercased candidate, the result is such
    a column for the first such candidate (the last one in column order, as
    the dictionary keeps the last).  Otherwise the result is the first column,
    for the first candidate that has one, whose label contains the candidate
    without regard to case.  The result is None exactly when no candidate
    matches any column in either way. *)
Theorem find_col_two_phase df_cols candidates :
  match find_col df_cols candidates with
  | Some c =>
      (∃ cand, first_candidate (exact_hit df_cols) candidates cand
               ∧ exact_pick df_cols cand c)
      ∨ ((∀ cand, cand ∈ candidates → ¬ exact_hit df_cols cand)
         ∧ ∃ cand, first_candidate (partial_hit df_cols) candidates cand
                   ∧ partial_pick df_cols cand c)
  | None =>
      ∀ cand, cand ∈ candidates →
              ¬ exact_hit df_cols cand ∧ ¬ partial_hit df_cols cand
  end
  ∧ (find_col df_cols candidates = None ↔
     ∀ cand, cand ∈ candidates →
             ¬ exact_hit df_cols cand ∧ ¬ partial_hit df_cols cand).
Proof.
  unfold find_col.
  destruct (find_col_exact _ candidates) as [c|] eqn:He.
  - split; [left; by apply find_col_exact_Some|].
    split; [done|]. intros Hn. apply find_col_exact_Some in He as (cand & (i & Hi & Hhit & _) & _).
    destruct (Hn cand) as [Hne _]; [by eapply list_elem_of_lookup_2|]. by destruct Hne.
  - pose proof (proj1 (find_col_exact_None _ _) He) as Hne.
    destruct (find_col_partial df_cols candidates) as [c|] eqn:Hp.
    + split; [right; split; [done|by apply find_col_partial_Some]|].
      split; [done|]. intros Hn.
      apply find_col_partial_Some in Hp as (cand & (i & Hi & Hhit & _) & _).
      destruct (Hn cand) as [_ Hnp]; [by eapply list_elem_of_lookup_2|]. by destruct Hnp.
    + pose proof (proj1 (find_col_partial_None _ _) Hp) as Hnp.
      assert (∀ cand, cand ∈ candidates →
                ¬ exact_hit df_cols cand ∧ ¬ partial_hit df_cols cand) as Hall
        by (intros cand Hc; split; auto).
      split; [done|]. by split.
Qed.
End FindCol.

(** ** Running scripts *)

Section Script.
Context {A B : Type}.
Implicit Types (m : script A) (f : A → script B).

Lemma trace_bind m f :
  trace (m ≫= f)
  = trace m ++ match outcome_of m with Done a => trace (f a) | _ => [] end.
Proof.
  destruct m as [tr [a| |e]]; unfold trace, outcome_of; simpl.
  - by destruct (f a).
  - by rewrite app_nil_r.
  - by rewrite app_nil_r.
Qed.
End Script.

Section Files.
Context `{RT : PyRuntime}.

Lemma str_endswith_spec s suf : str_endswith s suf = true ↔ ends_with s suf.
Proof.
  unfold ends_with. induction s as [|a s IH]; cbn [str_endswith].
  - rewrite orb_false_r, String.eqb_eq. split.
    + intros <-. by exists "".
    + intros [p Hp]. destruct p; simpl in Hp; [done|discriminate].
  - rewrite orb_true_iff, String.eqb_eq, IH. split.
    + intros [<-|[p ->]]; [by exists ""|]. by exists (String a p).
    + intros [[|b p] Hp]; simpl in Hp; [by left|]. right. exists p.
      by injection Hp.
Qed.

Lemma is_excel_name_spec f :
  is_excel_name f = true ↔
  ends_with (str_lower f) ".xlsx" ∨ ends_with (str_lower f) ".xls".
Proof. unfold is_excel_name. by rewrite orb_true_iff, !str_endswith_spec. Qed.

Lemma app_without_files w :
  excel_files_sorted w = [] →
  main w = ([st_set_page_config PAGE_TITLE; st_markdown page_css;
            os_makedirs DATA_DIR; os_listdir DATA_DIR; st_header SIDEBAR_HEADER;
            st_error MSG_NO_FILES; st_stop], Stopped).
Proof. intros H. unfold main, choose_file. rewrite H. reflexivity. Qed.

(** The first load, lines 240 to 250.  When [pd.read_excel] raises on the
    chosen file, the run consists of the page set-up, the file selectbox,
    that single read, one error message carrying the exception text, and
    [st.stop()]: no second read, no filtering, no preview and no download
    follow. *)
Theorem load_failure_reported_once w file_choice e :
  chosen_file w = Some file_choice →
  read_excel w (os_path_join DATA_DIR file_choice) = Raise e →
  main w = ([st_set_page_config PAGE_TITLE; st_markdown page_css;
            os_makedirs DATA_DIR; os_listdir DATA_DIR; st_header SIDEBAR_HEADER;
            st_selectbox LABEL_FILE (excel_files_sorted w);
            pd_read_excel (os_path_join DATA_DIR file_choice);
            st_error (MSG_LOAD_FAILED +:+ exn_str e); st_stop], Stopped).
Proof.
  unfold chosen_file, main, choose_file, load_data.
  destruct (excel_files_sorted w) as [|first rest]; [done|].
  intros [= <-] Hr. cbn. rewrite Hr. reflexivity.
Qed.

(** C7. The files on offer are the entries of [./data] whose lowercased name
    ends in [.xlsx] or [.xls], each as often as it is listed, in ascending
    order.  Without any, the run shows one error and stops before it opens a
    file; otherwise the selectbox lists exactly these names. *)
Theorem offered_files w :
  (∀ f, f ∈ excel_files_sorted w ↔
        f ∈ listdir w ∧ (ends_with (str_lower f) ".xlsx" ∨ ends_with (str_lower f) ".xls"))
  ∧ excel_files_sorted w ≡ₚ List.filter is_excel_name (listdir w)
  ∧ Sorted String.le (excel_files_sorted w)
  ∧ match excel_files_sorted w with
    | [] =>
        main w = ([st_set_page_config PAGE_TITLE; st_markdown page_css;
                  os_makedirs DATA_DIR; os_listdir DATA_DIR; st_header SIDEBAR_HEADER;
                  st_error MSG_NO_FILES; st_stop], Stopped)
        ∧ file_accesses (trace (main w)) = []
    | options =>
        ∃ rest, trace (main w)
                = [st_set_page_config PAGE_TITLE; st_markdown page_css;
                   os_makedirs DATA_DIR; os_listdir DATA_DIR; st_header SIDEBAR_HEADER;
                   st_selectbox LABEL_FILE options] ++ rest
    end.
Proof.
  assert (excel_files_sorted w ≡ₚ List.filter is_excel_name (listdir w)) as Hperm
    by apply merge_sort_Permutation.
  split_and!.
  - intros f. rewrite Hperm, !list_elem_of_In, filter_In, is_excel_name_spec. done.
  - done.
  - apply Sorted_merge_sort. apply _.
  - destruct (excel_files_sorted w) as [|first rest] eqn:E.
    + rewrite (app_without_files w E). done.
    + unfold main, choose_file. rewrite E. rewrite !trace_bind. cbn.
      eexists. reflexivity.
Qed.
End Files.

(** ** What each part of the script emits *)

Section Observers.
Context {A B : Type}.
Implicit Types (m : script A) (f : A → script B).

Lemma bind_Done_inv m f tr (b : B) :
  (m ≫= f) = (tr, Done b) →
  ∃ tr1 a tr2, m = (tr1, Done a) ∧ f a = (tr2, Done b) ∧ tr = tr1 ++ tr2.
Proof.
  destruct m as [tr1 [a| |e]]; [|done..]. unfold mbind, script_bind.
  destruct (f a) as [tr2 o] eqn:Hf. intros [= <- ->]. by exists tr1, a, tr2.
Qed.

Lemma file_accesses_bind m f :
  file_accesses (trace (m ≫= f))
  = file_accesses (trace m)
    ++ match outcome_of m with Done a => file_accesses (trace (f a)) | _ => [] end.
Proof.
  rewrite trace_bind. unfold file_accesses. rewrite List.filter_app.
  by destruct (outcome_of m).
Qed.

Lemma downloads_bind m f :
  downloads (trace (m ≫= f))
  = downloads (trace m)
    ++ match outcome_of m with Done a => downloads (trace (f a)) | _ => [] end.
Proof.
  rewrite trace_bind. unfold downloads. rewrite omap_app.
  by destruct (outcome_of m).
Qed.
End Observers.

Lemma uncaught_trace {A} (r : result A) : trace (uncaught r) = [].
Proof. by destruct r. Qed.

Lemma uncaught_Done {A} (r : result A) tr a :
  uncaught r = (tr, Done a) → r = Ok a ∧ tr = [].
Proof. destruct r; [|done]. by intros [= <- <-]. Qed.

Section Stages.
Context `{RT : PyRuntime}.

Lemma load_data_accesses w path :
  file_accesses (trace (load_data w path)) = [pd_read_excel path].
Proof. unfold load_data. by destruct (read_excel w path). Qed.

Lemma load_data_outcome w path :
  match read_excel w path with
  | Ok _ => ∃ df, outcome_of (load_data w path) = Done df
  | Raise _ => outcome_of (load_data w path) = Stopped
  end.
Proof. unfold load_data. destruct (read_excel w path); [eexists|]; reflexivity. Qed.

Lemma read_row_accesses w path sheet range row headers :
  file_accesses (trace (read_excel_row_values_for_headers w path sheet range row headers))
  = [openpyxl_load_workbook path].
Proof.
  unfold read_excel_row_values_for_headers.
  destruct (load_workbook w path) as [wb|]; [|done]. cbn.
  destruct (select_sheet wb sheet) as [ws|]; [|done]. cbn.
  by destruct (row_values_for_headers ws range row headers).
Qed.

Lemma filterable_cols_accesses w path df :
  file_accesses (trace (filterable_cols w path df)) = [openpyxl_load_workbook path].
Proof.
  unfold filterable_cols. rewrite file_accesses_bind, read_row_accesses.
  destruct (outcome_of _) as [sum_map| |]; [|done..].
  by destruct (filterable _ _).
Qed.

Lemma preview_accesses df_one : file_accesses (trace (preview df_one)) = [].
Proof.
  unfold preview. destruct (display_cols df_one); [done|].
  by destruct (df_insert_counter _ _).
Qed.

Lemma filter_and_show_accesses df filter_col :
  file_accesses (trace (filter_and_show df filter_col)) = [].
Proof.
  unfold filter_and_show. rewrite file_accesses_bind, uncaught_trace.
  destruct (outcome_of _) as [df_one| |]; [|done..].
  rewrite file_accesses_bind. destruct (outcome_of _); [|done..].
  apply preview_accesses.
Qed.

Lemma download_accesses df_view file_choice filter_col :
  file_accesses (trace (download df_view file_choice filter_col)) = [].
Proof. unfold download. by destruct (build_formatted_excel _ _ _). Qed.

(** Everything after the row-174 read touches no file. *)
Lemma result_page_accesses w df file_choice options :
  file_accesses (trace (
    filter_col ← choose_subject w options;
    page_title file_choice filter_col;;
    df_view ← filter_and_show df filter_col;
    download df_view file_choice filter_col;;
    emit (st_success MSG_DONE))) = [].
Proof.
  rewrite file_accesses_bind.
  destruct (outcome_of _) as [filter_col| |]; [|done..].
  rewrite file_accesses_bind.
  destruct (outcome_of _); [|done..].
  rewrite file_accesses_bind, filter_and_show_accesses.
  destruct (outcome_of _) as [df_view| |]; [|done..].
  rewrite file_accesses_bind, download_accesses.
  by destruct (outcome_of _).
Qed.

Lemma choose_file_run w :
  choose_file w
  = match excel_files_sorted w with
    | [] => ([os_makedirs DATA_DIR; os_listdir DATA_DIR; st_header SIDEBAR_HEADER;
              st_error MSG_NO_FILES; st_stop], Stopped)
    | first :: rest =>
        ([os_makedirs DATA_DIR; os_listdir DATA_DIR; st_header SIDEBAR_HEADER;
          st_selectbox LABEL_FILE (first :: rest)],
         Done (default first ((first :: rest) !! file_pick w)))
    end.
Proof. unfold choose_file. by destruct (excel_files_sorted w). Qed.

(** C6, as amended.  A run opens no spreadsheet when none can be chosen; it
    opens the chosen file once, with [pd.read_excel], when that read fails;
    and it opens it twice when the read succeeds: once with [pd.read_excel]
    and once more with [load_workbook] for row 174.  No other file is opened. *)
Theorem spreadsheet_accesses w :
  match chosen_file w with
  | None => file_accesses (trace (main w)) = []
  | Some file_choice =>
      let path := os_path_join DATA_DIR file_choice in
      match read_excel w path with
      | Raise _ => file_accesses (trace (main w)) = [pd_read_excel path]
      | Ok _ =>
          file_accesses (trace (main w))
          = [pd_read_excel path; openpyxl_load_workbook path]
      end
  end.
Proof.
  unfold chosen_file.
  destruct (excel_files_sorted w) as [|first rest] eqn:E.
  { by rewrite (app_without_files w E). }
  cbn zeta. set (file_choice := default first ((first :: rest) !! file_pick w)).
  set (path := os_path_join DATA_DIR file_choice).
  assert (file_accesses (trace (main w))
          = [pd_read_excel path]
            ++ match outcome_of (load_data w path) with
               | Done _ => [openpyxl_load_workbook path]
               | _ => []
               end) as ->.
  { unfold main. rewrite file_accesses_bind. change (outcome_of page_setup) with (Done tt).
    rewrite file_accesses_bind, choose_file_run, E.
    cbn [trace outcome_of fst snd]. fold file_choice. cbn zeta. fold path.
    rewrite file_accesses_bind, load_data_accesses.
    change (file_accesses (trace page_setup)) with (@nil event).
    rewrite !app_nil_l. f_equal. destruct (outcome_of (load_data w path)) as [df| |]; [|done..].
    rewrite file_accesses_bind, filterable_cols_accesses.
    destruct (outcome_of _) as [options| |]; [|done..].
    by rewrite result_page_accesses. }
  pose proof (load_data_outcome w path) as Ho.
  destruct (read_excel w path) as [raw|e].
  - destruct Ho as [df ->]. done.
  - rewrite Ho. done.
Qed.

(** *** Download buttons *)

Lemma choose_file_downloads w : downloads (trace (choose_file w)) = [].
Proof. rewrite choose_file_run. by destruct (excel_files_sorted w). Qed.

Lemma load_data_downloads w path : downloads (trace (load_data w path)) = [].
Proof. unfold load_data. by destruct (read_excel w path). Qed.

Lemma read_row_downloads w path sheet range row headers :
  downloads (trace (read_excel_row_values_for_headers w path sheet range row headers)) = [].
Proof.
  unfold read_excel_row_values_for_headers.
  destruct (load_workbook w path) as [wb|]; [|done]. cbn.
  destruct (select_sheet wb sheet) as [ws|]; [|done]. cbn.
  by destruct (row_values_for_headers ws range row headers).
Qed.

Lemma filterable_cols_downloads w path df :
  downloads (trace (filterable_cols w path df)) = [].
Proof.
  unfold filterable_cols. rewrite downloads_bind, read_row_downloads.
  destruct (outcome_of _) as [sum_map| |]; [|done..].
  by destruct (filterable _ _).
Qed.

Lemma preview_downloads df_one : downloads (trace (preview df_one)) = [].
Proof.
  unfold preview. destruct (display_cols df_one); [done|].
  by destruct (df_insert_counter _ _).
Qed.

Lemma filter_and_show_downloads df filter_col :
  downloads (trace (filter_and_show df filter_col)) = [].
Proof.
  unfold filter_and_show. rewrite downloads_bind, uncaught_trace.
  destruct (outcome_of _) as [df_one| |]; [|done..].
  rewrite downloads_bind. destruct (outcome_of _); [|done..].
  apply preview_downloads.
Qed.

Lemma download_run df_view file_choice filter_col :
  download df_view file_choice filter_col
  = match build_formatted_excel df_view file_choice filter_col with
    | Ok wb =>
        ([st_download_button LABEL_DOWNLOAD (XlsxData wb)
            (str_replace (normalize_text (PStr file_choice)) ".xlsx" "" +:+ "_"
               +:+ normalize_text filter_col +:+ ".xlsx") XLSX_MIME], Done tt)
    | Raise e => ([], Crashed e)
    end.
Proof. unfold download. by destruct (build_formatted_excel _ _ _). Qed.

(** A run never offers a PDF. *)
Lemma main_downloads_not_pdf w :
  Forall (λ d, is_pdf d = false) (downloads (trace (main w))).
Proof.
  unfold main. rewrite downloads_bind. change (outcome_of page_setup) with (Done tt).
  change (downloads (trace page_setup)) with (@nil FileData). rewrite app_nil_l.
  rewrite downloads_bind, choose_file_downloads, app_nil_l.
  destruct (outcome_of _) as [file_choice| |]; [|done..]. cbn zeta.
  rewrite downloads_bind, load_data_downloads, app_nil_l.
  destruct (outcome_of _) as [df| |]; [|done..].
  rewrite downloads_bind, filterable_cols_downloads, app_nil_l.
  destruct (outcome_of _) as [options| |]; [|done..].
  rewrite downloads_bind. destruct (outcome_of _) as [filter_col| |]; [|done..].
  rewrite downloads_bind. destruct (outcome_of _); [|done..].
  rewrite downloads_bind, filter_and_show_downloads.
  destruct (outcome_of _) as [df_view| |]; [|done..].
  rewrite downloads_bind, download_run.
  destruct (build_formatted_excel _ _ _) as [wb|e]; [|done].
  repeat constructor.
Qed.

(** C3, as amended.  No run offers a PDF: every download button serves an
    Excel workbook.  A run that reaches its end offers exactly one download,
    the workbook that [build_formatted_excel] makes of the view of the loaded
    frame for the chosen file. *)
Theorem only_excel_is_offered w :
  (∀ d, d ∈ downloads (trace (main w)) → is_pdf d = false)
  ∧ ∀ tr, main w = (tr, Done tt) →
      ∃ file_choice df filter_col df_view wb load_tr shown_tr,
        chosen_file w = Some file_choice
        ∧ load_data w (os_path_join DATA_DIR file_choice) = (load_tr, Done df)
        ∧ filter_and_show df filter_col = (shown_tr, Done df_view)
        ∧ build_formatted_excel df_view file_choice filter_col = Ok wb
        ∧ downloads tr = [XlsxData wb].
Proof.
  split.
  { intros d Hd. by eapply (proj1 (Forall_forall _ _) (main_downloads_not_pdf w)). }
  intros tr Hrun. unfold main in Hrun.
  apply bind_Done_inv in Hrun as (t0 & [] & tr1 & H0 & Hrun & ->).
  apply bind_Done_inv in Hrun as (t1 & file_choice & tr2 & H1 & Hrun & ->).
  cbn zeta in Hrun.
  apply bind_Done_inv in Hrun as (t2 & df & tr3 & H2 & Hrun & ->).
  apply bind_Done_inv in Hrun as (t3 & options & tr4 & H3 & Hrun & ->).
  apply bind_Done_inv in Hrun as (t4 & filter_col & tr5 & H4 & Hrun & ->).
  apply bind_Done_inv in Hrun as (t5 & [] & tr6 & H5 & Hrun & ->).
  apply bind_Done_inv in Hrun as (t6 & df_view & tr7 & H6 & Hrun & ->).
  apply bind_Done_inv in Hrun as (t7 & [] & tr8 & H7 & Hrun & ->).
  rewrite download_run in H7.
  destruct (build_formatted_excel df_view file_choice filter_col) as [wb|e] eqn:Hb; [|done].
  exists file_choice, df, filter_col, df_view, wb, t2, t6. split_and!; [|done..|].
  - rewrite choose_file_run in H1. unfold chosen_file.
    destruct (excel_files_sorted w); [done|]. by injection H1 as _ <-.
  - assert (∀ {A} (m : script A) t o, m = (t, o) → trace m = t) as Htr by (by intros ??? ? ->).
    unfold downloads. rewrite !omap_app. fold (downloads t0) (downloads t1) (downloads t2)
      (downloads t3) (downloads t4) (downloads t5) (downloads t6) (downloads t7) (downloads tr8).
    rewrite <-(Htr _ _ _ _ H1), <-(Htr _ _ _ _ H2), <-(Htr _ _ _ _ H3), <-(Htr _ _ _ _ H6).
    rewrite choose_file_downloads, load_data_downloads, filterable_cols_downloads,
      filter_and_show_downloads.
    injection H0 as <-. injection H4 as <- _. injection H5 as <-. injection H7 as <-.
    injection Hrun as <-. done.
Qed.

(** *** The rows marked 1 *)

Lemma getitem_mask_rows_filter (f : list pyval → bool) rs :
  getitem_mask_rows rs (map f rs) = List.filter f rs.
Proof. induction rs as [|r rs IH]; [done|]. simpl. destruct (f r); by rewrite IH. Qed.

Lemma is_one_spec x :
  is_one x = true ↔
  pd_isna x = false
  ∧ ∃ f, float_of_string (str_strip (py_str x)) = Some f ∧ float_eq f float_one = true.
Proof.
  unfold is_one, float_of_cell. destruct (pd_isna x).
  { split; [done|]. by intros [? _]. }
  destruct (float_of_string _) as [f|].
  - split; [by eauto|]. by intros (_ & f' & [= <-] & ?).
  - split; [done|]. by intros (_ & f' & ? & _).
Qed.

(** What the filter leaves of a frame whose subject column is at position
    [i]: the frame without columns when it has no row and the column is not
    of dtype bool, the rows that pass [is_one] under its labels otherwise. *)
Lemma rows_marked_one_Ok df filter_col df_one :
  rows_marked_one df filter_col = Ok df_one →
  ∃ c i, filter_col = PStr c
         ∧ label_positions (columns df) c = [i]
         ∧ let marked := List.filter (λ r, is_one (row_at r i)) (rows df) in
           df_one = match rows df, dtype_at df i with
                    | [], bool_ | _ :: _, _ =>
                        {| columns := columns df; dtypes := dtypes df; rows := marked |}
                    | [], _ => {| columns := []; dtypes := []; rows := marked |}
                    end.
Proof.
  unfold rows_marked_one, getitem_apply.
  destruct filter_col as [| | | |c| |]; try done.
  destruct (label_positions (columns df) c) as [|i [|]] eqn:Hp; try done.
  intros Hone. exists c, i. split_and!; [done..|]. cbn zeta.
  destruct (rows df) as [|r rs] eqn:Hrows.
  - destruct (dtype_at df i); cbn in Hone; injection Hone as <-;
      unfold getitem_mask, getitem_cols; rewrite ?Hrows; reflexivity.
  - destruct (dtype_at df i); cbn in Hone; injection Hone as <-;
      unfold getitem_mask; rewrite Hrows; f_equal;
      exact (getitem_mask_rows_filter (λ r, is_one (row_at r i)) (r :: rs)).
Qed.

(** C1, as amended.  When the filter and preview step completes, the chosen
    subject names exactly one column; the rows kept are the rows of the frame
    whose cell in that column passes [is_one] (it is not NaN and the float
    read from its stripped string form equals 1.0), in their order.  They keep
    the labels of the frame, except that a frame without rows is left without
    columns (unless the subject column is of dtype bool).  The view handed to
    the exporter holds all of the kept rows: whole when no class, number or
    name column is found, cut down to those columns otherwise.  The preview
    shows all of them, numbered from 1, when such a column is found, and only
    the first 20 of them when none is. *)
Theorem marked_rows_shown_and_exported df filter_col tr df_view :
  filter_and_show df filter_col = (tr, Done df_view) →
  ∃ c i,
    filter_col = PStr c ∧ label_positions (columns df) c = [i] ∧
    let marked := List.filter (λ r, is_one (row_at r i)) (rows df) in
    let df_one :=
      match rows df, dtype_at df i with
      | [], bool_ | _ :: _, _ =>
          {| columns := columns df; dtypes := dtypes df; rows := marked |}
      | [], _ => {| columns := []; dtypes := []; rows := marked |}
      end in
    (∀ r, r ∈ marked ↔ r ∈ rows df ∧ is_one (row_at r i) = true)
    ∧ (∀ x, is_one x = true ↔
            pd_isna x = false
            ∧ ∃ f, float_of_string (str_strip (py_str x)) = Some f
                   ∧ float_eq f float_one = true)
    ∧ rows df_one = marked
    ∧ match display_cols df_one with
      | [] =>
          df_view = df_one
          ∧ shown tr = [ {| columns := columns df_one; dtypes := dtypes df_one;
                            rows := take 20 marked |} ]
      | cols =>
          let pos := cols ≫= label_positions (columns df_one) in
          rows df_view = map (λ r, map (row_at r) pos) marked
          ∧ ∃ d, shown tr = [d]
                 ∧ rows d = imap (λ k r, PInt (Z.of_nat (S k)) :: r) (rows df_view)
      end.
Proof.
  unfold filter_and_show. intros Hrun.
  apply bind_Done_inv in Hrun as (t0 & df_one & tr1 & H0 & Hrun & ->).
  apply uncaught_Done in H0 as [Hone ->].
  apply bind_Done_inv in Hrun as (t1 & [] & tr2 & H1 & Hrun & ->).
  injection H1 as <-.
  apply rows_marked_one_Ok in Hone as (c & i & -> & Hpos & Hone). cbn zeta in Hone.
  exists c, i. do 2 (split; [done|]). cbn zeta. rewrite <-Hone.
  assert (rows df_one = List.filter (λ r, is_one (row_at r i)) (rows df)) as Hrows.
  { rewrite Hone. by destruct (rows df), (dtype_at df i). }
  split_and!.
  - intros r. by rewrite !list_elem_of_In, filter_In.
  - apply is_one_spec.
  - done.
  - rewrite <-Hrows. unfold preview in Hrun.
    destruct (display_cols df_one) as [|c0 cols] eqn:Hd.
    + injection Hrun as <- <-. done.
    + apply bind_Done_inv in Hrun as (t2 & df_display & tr3 & H2 & Hrun & ->).
      apply uncaught_Done in H2 as [Hins ->].
      injection Hrun as <- <-. cbn zeta. split; [done|].
      exists df_display. split; [done|].
      unfold df_insert_counter in Hins. destruct (has_column _ _); [done|].
      by injection Hins as <-.
Qed.

(** *** Row 174 *)









(** *** The subject columns on offer *)




End Stages.

(** ** Text normalisation *)

Section Normalize.
Context `{RT : PyRuntime}.

(** C10.  [normalize_text] returns a string for every value: the empty string
    for None and the NFC form of [str(x)] otherwise.  Given that NFC is
    idempotent and leaves the empty string alone, normalising twice is
    normalising once. *)
Theorem normalize_text_idempotent :
  (∀ s, unicodedata_nfc (unicodedata_nfc s) = unicodedata_nfc s) →
  unicodedata_nfc "" = "" →
  normalize_text PNone = ""
  ∧ (∀ x, x ≠ PNone → normalize_text x = unicodedata_nfc (py_str x))
  ∧ (∀ x, normalize_text (PStr (normalize_text x)) = normalize_text x).
Proof.
  intros Hidem Hempty. split_and!.
  - done.
  - by intros [].
  - intros []; simpl; by rewrite ?Hempty, ?Hidem.
Qed.
End Normalize.

(** ** The rows that the export iterates over *)





(** ** The Excel export on short rows *)

Section ExcelExport.
Context `{RT : PyRuntime}.

(** A first row with fewer than three cells makes the export raise. *)
Lemma build_formatted_excel_short_row df_view row rest file_choice filter_col :
  rows df_view = row :: rest →
  length row < 3 →
  build_formatted_excel df_view file_choice filter_col
  = Raise (Exn "IndexError" "single positional indexer is out-of-bounds").
Proof.
  intros Hrows Hlen. unfold build_formatted_excel, iterrows. rewrite Hrows.
  cbn [map enumerate for_each]. unfold write_data_row at 1.
  destruct row as [|v0 [|v1 [|v2 row]]]; [done..|]. simpl in Hlen. lia.
Qed.

(** C4 at the failing input: a view holding only the name column, with one
    row, yields IndexError instead of a workbook. *)
Theorem export_of_name_only_view_raises file_choice filter_col :
  build_formatted_excel name_only_view file_choice filter_col
  = Raise (Exn "IndexError" "single positional indexer is out-of-bounds").
Proof.
  unfold build_formatted_excel, iterrows, name_only_view.
  cbn [rows map enumerate for_each]. reflexivity.
Qed.
End ExcelExport.

(** ** The layout of the Excel export *)

Section Layout.
Context `{RT : PyRuntime}.
Implicit Types (ws : Worksheet) (r c : nat) (f : Cell → Cell).






(** *** The header loop *)


(** *** Loops that only style cells *)


(** *** The data loop *)



(** *** Borders, widths and heights *)






(** *** The whole sheet *)



End Layout.

(** ** The sample runs *)

Example find_col_keeps_last_exact :
  find_col (RT := ascii_runtime) ["Name"; "name"; "NAME"; "x"] CANDIDATE_NAME_COLS = Some "NAME".
Proof. reflexivity. Qed.

Example is_one_examples :
  map (is_one (RT := ascii_runtime)) [PInt 1; PStr " 1 "; PStr "1.0"; PFloat float_one; PStr "1e0";
                    PNone; PFloat S754_nan; PBool true; PStr "2"; PStr "x"; PInt 0]
  = [true; true; true; true; true; false; false; false; false; false; false].
Proof. vm_compute. reflexivity. Qed.

Example cell_number_examples :
  map (cell_number (RT := ascii_runtime)) [PNone; PStr ""; PStr "abc"; PInt 0; PStr " 2 "]
  = [float_zero; float_zero; float_zero; float_zero;
     S754_finite false 4503599627370496 (-51)].
Proof. vm_compute. reflexivity. Qed.

(** ** The statements at the sample inputs *)

Lemma find_col_two_phase_sample :
  find_col (RT := ascii_runtime) ["Student Name"; "x"] CANDIDATE_NAME_COLS = Some "Student Name"
  ∧ ((∃ cand, first_candidate (exact_hit (RT := ascii_runtime) ["Student Name"; "x"])
                CANDIDATE_NAME_COLS cand
              ∧ exact_pick (RT := ascii_runtime) ["Student Name"; "x"] cand "Student Name")
     ∨ ((∀ cand, cand ∈ CANDIDATE_NAME_COLS →
                 ¬ exact_hit (RT := ascii_runtime) ["Student Name"; "x"] cand)
        ∧ ∃ cand, first_candidate (partial_hit (RT := ascii_runtime) ["Student Name"; "x"])
                    CANDIDATE_NAME_COLS cand
                  ∧ partial_pick (RT := ascii_runtime) ["Student Name"; "x"] cand
                      "Student Name")).
Proof.
  split; [reflexivity|].
  exact (proj1 (find_col_two_phase (RT := ascii_runtime) ["Student Name"; "x"]
                  CANDIDATE_NAME_COLS)).
Defined.

Lemma normalize_text_idempotent_sample :
  (∀ s, unicodedata_nfc (PyRuntime := ascii_runtime)
          (unicodedata_nfc (PyRuntime := ascii_runtime) s)
        = unicodedata_nfc (PyRuntime := ascii_runtime) s)
  ∧ unicodedata_nfc (PyRuntime := ascii_runtime) "" = ""
  ∧ normalize_text (RT := ascii_runtime)
      (PStr (normalize_text (RT := ascii_runtime) (PInt 5)))
    = normalize_text (RT := ascii_runtime) (PInt 5).
Proof.
  split; [reflexivity|]. split; [reflexivity|].
  apply (normalize_text_idempotent (RT := ascii_runtime)); reflexivity.
Defined.

Lemma load_failure_sample :
  chosen_file (RT := ascii_runtime) broken_world = Some "week2.XLSX"
  ∧ read_excel broken_world (os_path_join DATA_DIR "week2.XLSX")
    = Raise (Exn "BadZipFile" "File is not a zip file")
  ∧ main (RT := ascii_runtime) broken_world
    = ([st_set_page_config PAGE_TITLE; st_markdown page_css;
        os_makedirs DATA_DIR; os_listdir DATA_DIR; st_header SIDEBAR_HEADER;
        st_selectbox LABEL_FILE ["week1.xlsx"; "week2.XLSX"];
        pd_read_excel "./data/week2.XLSX";
        st_error "엑셀 로드 실패: File is not a zip file"; st_stop], Stopped).
Proof.
  split; [vm_compute; reflexivity|]. split; [reflexivity|].
  apply (load_failure_reported_once (RT := ascii_runtime) broken_world "week2.XLSX"
           (Exn "BadZipFile" "File is not a zip file")); vm_compute; reflexivity.
Defined.


(** C6 as stated fails: the chosen file of the sample run is opened twice. *)
Lemma sample_file_opened_twice :
  file_accesses (trace (main (RT := ascii_runtime) sample_world))
  = [pd_read_excel "./data/week1.xlsx"; openpyxl_load_workbook "./data/week1.xlsx"]
  ∧ length (file_accesses (trace (main (RT := ascii_runtime) sample_world))) ≠ 1.
Proof.
  split; [vm_compute; reflexivity|]. vm_compute. discriminate.
Qed.

(** C3 as stated fails: the sample run reaches its end with one download
    button, which serves a workbook, and none that serves a PDF. *)
Lemma sample_run_offers_no_pdf :
  outcome_of (main (RT := ascii_runtime) sample_world) = Done tt
  ∧ map is_pdf (downloads (trace (main (RT := ascii_runtime) sample_world))) = [false].
Proof.
  split; vm_compute; reflexivity.
Qed.

Lemma only_excel_is_offered_sample :
  main (RT := ascii_runtime) sample_world
  = (trace (main (RT := ascii_runtime) sample_world), Done tt)
  ∧ ∃ wb, downloads (trace (main (RT := ascii_runtime) sample_world)) = [XlsxData wb].
Proof.
  assert (main (RT := ascii_runtime) sample_world
          = (trace (main (RT := ascii_runtime) sample_world), Done tt)) as Hrun
    by (vm_compute; reflexivity).
  split; [exact Hrun|].
  destruct (proj2 (only_excel_is_offered (RT := ascii_runtime) sample_world) _ Hrun)
    as (file_choice & df & filter_col & df_view & wb & load_tr & shown_tr & _ & _ & _ & _ & Hd).
  exists wb. exact Hd.
Defined.

(** C1 as stated fails: of 21 rows marked 1, the preview shows 20 when the
    sheet has no class, number or name column. *)
Lemma preview_shows_20_of_21 :
  length (List.filter (λ r, is_one (RT := ascii_runtime) (row_at r 0)) (rows unnamed_frame)) = 21
  ∧ map df_len (shown (trace (filter_and_show (RT := ascii_runtime) unnamed_frame (PStr "x"))))
    = [20].
Proof.
  split; vm_compute; reflexivity.
Qed.

Lemma marked_rows_sample :
  filter_and_show (RT := ascii_runtime) roster_frame (PStr "Math")
  = (trace (filter_and_show (RT := ascii_runtime) roster_frame (PStr "Math")),
     Done {| columns := ["반"; "번호"; "이름"];
             dtypes := [int64; int64; object_];
             rows := [ [PInt 1; PInt 1; PStr "Kim"];
                       [PInt 1; PInt 2; PStr "Lee"];
                       [PInt 2; PInt 2; PStr "Choi"] ] |})
  ∧ ∃ c i, PStr "Math" = PStr c ∧ label_positions (columns roster_frame) c = [i].
Proof.
  assert (filter_and_show (RT := ascii_runtime) roster_frame (PStr "Math")
          = (trace (filter_and_show (RT := ascii_runtime) roster_frame (PStr "Math")),
             Done {| columns := ["반"; "번호"; "이름"];
                     dtypes := [int64; int64; object_];
                     rows := [ [PInt 1; PInt 1; PStr "Kim"];
                               [PInt 1; PInt 2; PStr "Lee"];
                               [PInt 2; PInt 2; PStr "Choi"] ] |})) as Hrun
    by (vm_compute; reflexivity).
  split; [exact Hrun|].
  destruct (marked_rows_shown_and_exported (RT := ascii_runtime) _ _ _ _ Hrun)
    as (c & i & Hc & Hi & _).
  exists c, i. split; [exact Hc|exact Hi].
Defined.





(** With only the name column detected, the whole run ends in the IndexError. *)
Example name_only_run_crashes :
  outcome_of (main (RT := ascii_runtime)
                {| listdir := ["w.xlsx"];
                   read_excel := λ _, Ok {| raw_columns := [PStr "이름"; PStr "Math"];
                                            raw_dtypes := [object_; int64];
                                            raw_rows := [[PStr "Kim"; PInt 1]] |};
                   load_workbook := λ _, Ok [ {| ws_title := "Sheet1";
                                                 ws_cells := {[ (174, 2) := plain_cell (PInt 1) ]};
                                                 ws_merged := []; ws_row_height := ∅;
                                                 ws_column_width := ∅ |} ];
                   file_pick := 0; subject_pick := 0 |})
  = Crashed (Exn "IndexError" "single positional indexer is out-of-bounds").
Proof. vm_compute. reflexivity. Qed.


(** * Further properties

    ** When the Excel export raises *)

Section ExportFailure.
Context `{RT : PyRuntime}.







End ExportFailure.


(** ** Fonts, alignment, borders and dimensions of the Excel export *)

Section Styles.
Context `{RT : PyRuntime}.
Implicit Types (ws : Worksheet) (r c : nat) (f : Cell → Cell).














(** *** The header loop *)





(** *** The data loop *)



(** *** Borders and alignment *)


(** *** Row heights and column widths *)





(** *** The styled sheet *)

End Styles.

(** ** The filter *)

Section Filter.
Context `{RT : PyRuntime}.

Lemma filter_filter {A} (f : A → bool) (l : list A) :
  List.filter f (List.filter f l) = List.filter f l.
Proof.
  induction l as [|x l IH]; simpl; [done|].
  destruct (f x) eqn:Hx; simpl; [|done]. by rewrite Hx, IH.
Qed.

Lemma filter_sublist_of {A} (f : A → bool) (l : list A) :
  List.filter f l `sublist_of` l.
Proof.
  induction l as [|x l IH]; simpl; [done|]. destruct (f x); by constructor.
Qed.

(** X4.  The filter keeps rows of the frame, in their order.  On a frame with
    at least one row it keeps the labels and the dtypes, and filtering its
    result again by the same subject changes nothing as long as a row is
    left; once none is left, the second filter returns a frame without
    columns.  On a frame without rows the first filter already returns a frame
    without columns, and the second one raises KeyError.  A subject column of
    dtype bool is the exception: the labels are then kept throughout. *)
Theorem rows_marked_one_twice df filter_col df_one :
  rows_marked_one df filter_col = Ok df_one →
  ∃ c i,
    filter_col = PStr c ∧ label_positions (columns df) c = [i]
    ∧ rows df_one `sublist_of` rows df
    ∧ let kept := columns df_one = columns df ∧ dtypes df_one = dtypes df in
      let dropped := columns df_one = [] ∧ dtypes df_one = [] in
      let again := rows_marked_one df_one filter_col in
      match rows df, rows df_one, dtype_at df i with
      | [], _, bool_ => kept ∧ again = Ok df_one
      | [], _, _ => dropped ∧ again = Raise (Exn "KeyError" c)
      | _ :: _, [], bool_ => kept ∧ again = Ok df_one
      | _ :: _, [], _ => kept ∧ again = Ok {| columns := []; dtypes := []; rows := [] |}
      | _ :: _, _ :: _, _ => kept ∧ again = Ok df_one
      end.
Proof.
  intros Hone.
  apply rows_marked_one_Ok in Hone as (c & i & -> & Hpos & Hone). cbn zeta in Hone.
  exists c, i. do 2 (split; [done|]).
  assert (rows df_one = List.filter (λ r, is_one (row_at r i)) (rows df)) as Hrows.
  { rewrite Hone. by destruct (rows df), (dtype_at df i). }
  split; [rewrite Hrows; apply filter_sublist_of|]. cbn zeta.
  unfold rows_marked_one, getitem_apply.
  destruct (rows df) as [|r rs] eqn:Hdf.
  - (* no row *)
    destruct (dtype_at df i) eqn:Hd; subst df_one; cbn [columns dtypes rows List.filter];
      try (split; [done|reflexivity]).
    split; [done|]. rewrite Hpos. unfold dtype_at in *. cbn [dtypes]. rewrite Hd.
    reflexivity.
  - assert (df_one = {| columns := columns df; dtypes := dtypes df;
                        rows := List.filter (λ r, is_one (row_at r i)) (r :: rs) |}) as ->
      by (rewrite Hone; by destruct (dtype_at df i)).
    cbn [columns dtypes rows]. clear Hone Hrows.
    destruct (List.filter (λ r, is_one (row_at r i)) (r :: rs)) as [|r1 rs1] eqn:Hf.
    + rewrite Hpos. unfold dtype_at. cbn [dtypes].
      destruct (default object_ (dtypes df !! i)); split; done.
    + split; [done|]. rewrite Hpos.
      cbn [mbind result_bind]. unfold getitem_mask. cbn [columns dtypes rows].
      do 2 f_equal.
      rewrite (getitem_mask_rows_filter (λ r, is_one (row_at r i)) (r1 :: rs1)).
      rewrite <-Hf. apply filter_filter.
Qed.
End Filter.

(** ** The file list *)

Section FileList.
Context `{RT : PyRuntime}.

Lemma filter_Permutation {A} (f : A → bool) (l1 l2 : list A) :
  l1 ≡ₚ l2 → List.filter f l1 ≡ₚ List.filter f l2.
Proof.
  induction 1 as [|x l1 l2 _ IH|x y l|l1 l2 l3 _ IH1 _ IH2]; simpl.
  - done.
  - destruct (f x); by rewrite IH.
  - destruct (f x), (f y); try done. apply perm_swap.
  - by rewrite IH1.
Qed.

(** X5.  The list on offer does not depend on the order in which the directory is
    listed. *)
Theorem excel_files_sorted_any_listing w1 w2 :
  listdir w1 ≡ₚ listdir w2 → excel_files_sorted w1 = excel_files_sorted w2.
Proof.
  intros Hperm. unfold excel_files_sorted, sorted.
  apply (Sorted_unique String.le).
  - apply Sorted_merge_sort, _.
  - apply Sorted_merge_sort, _.
  - rewrite !merge_sort_Permutation. by apply filter_Permutation.
Qed.

Lemma excel_files_sorted_elem w f :
  f ∈ excel_files_sorted w ↔ f ∈ listdir w ∧ is_excel_name f = true.
Proof.
  unfold excel_files_sorted, sorted.
  rewrite merge_sort_Permutation, !list_elem_of_In, filter_In. done.
Qed.

Lemma excel_files_sorted_head w first rest g :
  excel_files_sorted w = first :: rest → g ∈ first :: rest → String.le first g.
Proof.
  intros E Hg.
  assert (StronglySorted String.le (first :: rest)) as Hs.
  { rewrite <-E. apply StronglySorted_merge_sort; apply _. }
  apply elem_of_cons in Hg as [->|Hg]; [done|].
  apply StronglySorted_inv in Hs as [_ Hall].
  by eapply (proj1 (Forall_forall _ _) Hall).
Qed.

(** X6.  The file chosen in the sidebar is an entry of the directory whose
    lowercased name ends in .xlsx or .xls; at the initial position 0 of the
    selectbox it is the least such name.  No file is chosen only when the
    directory has no such entry. *)
Theorem chosen_file_is_listed w :
  match chosen_file w with
  | Some f =>
      f ∈ listdir w ∧ is_excel_name f = true
      ∧ (file_pick w = 0 →
         ∀ g, g ∈ listdir w → is_excel_name g = true → String.le f g)
  | None => ∀ g, g ∈ listdir w → is_excel_name g = false
  end.
Proof.
  unfold chosen_file. destruct (excel_files_sorted w) as [|first rest] eqn:E.
  - intros g Hg. destruct (is_excel_name g) eqn:Hx; [|done].
    assert (g ∈ excel_files_sorted w) as Hin by (by apply excel_files_sorted_elem).
    rewrite E in Hin. by apply elem_of_nil in Hin.
  - assert (default first ((first :: rest) !! file_pick w) ∈ excel_files_sorted w) as Hin.
    { rewrite E. destruct ((first :: rest) !! file_pick w) as [f|] eqn:Hpick; simpl.
      - by eapply list_elem_of_lookup_2.
      - left. }
    apply excel_files_sorted_elem in Hin as [? ?]. split_and!; [done..|].
    intros -> g Hg Hx. simpl. apply (excel_files_sorted_head w first rest g E).
    rewrite <-E. by apply excel_files_sorted_elem.
Qed.
End FileList.

(** ** Column detection, continued *)

Section Detection.
Context `{RT : PyRuntime}.

Lemma find_col_elem df_cols candidates c :
  find_col df_cols candidates = Some c → c ∈ df_cols.
Proof.
  unfold find_col. destruct (find_col_exact _ candidates) as [c'|] eqn:He.
  - intros [= ->]. apply find_col_exact_Some in He as (cand & _ & k & Hk & _).
    by eapply list_elem_of_lookup_2.
  - intros (cand & _ & k & Hk & _)%find_col_partial_Some.
    by eapply list_elem_of_lookup_2.
Qed.

(** X7.  [find_col] only ever returns one of the given labels, and returns None
    when there is no column or no candidate. *)
Theorem find_col_returns_a_column df_cols candidates :
  (∀ c, find_col df_cols candidates = Some c → c ∈ df_cols)
  ∧ find_col [] candidates = None
  ∧ find_col df_cols [] = None.
Proof.
  split_and!.
  - intros c. apply find_col_elem.
  - unfold find_col.
    assert (find_col_exact (lower_cols_of []) candidates = None) as ->.
    { apply find_col_exact_None. intros cand _ (c & Hc & _). by apply elem_of_nil in Hc. }
    apply find_col_partial_None. intros cand _ (c & Hc & _). by apply elem_of_nil in Hc.
  - done.
Qed.
End Detection.

(** ** The sheet that is read *)

Section Sheets.

Lemma wb_getitem_lookup (wb : Workbook) : ∀ i ws,
  NoDup (sheetnames wb) → wb !! i = Some ws → wb_getitem wb (ws_title ws) = Ok ws.
Proof.
  unfold wb_getitem, sheetnames.
  induction wb as [|ws0 wb IH]; intros i ws Hnd Hi; [done|].
  apply NoDup_cons in Hnd as [Hnotin Hnd]. simpl.
  destruct i as [|i]; simpl in Hi.
  - injection Hi as ->. by rewrite String.eqb_refl.
  - destruct (String.eqb_spec (ws_title ws0) (ws_title ws)) as [Heq|Hne].
    + exfalso. apply Hnotin. rewrite Heq. apply list_elem_of_fmap. exists ws.
      split; [done|]. by eapply list_elem_of_lookup_2.
    + by apply (IH i).
Qed.

(** X8.  With distinct sheet titles, an index selects the sheet at that position
    (IndexError beyond the last sheet), a title selects the sheet that bears
    it, and a title that no sheet bears selects the first sheet. *)
Theorem select_sheet_by_index_or_title (wb : Workbook) :
  NoDup (sheetnames wb) →
  (∀ i, select_sheet wb (SheetIndex i)
        = match wb !! i with
          | Some ws => Ok ws
          | None => Raise (Exn "IndexError" "list index out of range")
          end)
  ∧ (∀ i ws, wb !! i = Some ws → select_sheet wb (SheetTitle (ws_title ws)) = Ok ws)
  ∧ (∀ s, s ∉ sheetnames wb →
          select_sheet wb (SheetTitle s) = select_sheet wb (SheetIndex 0)).
Proof.
  intros Hnd.
  assert (∀ i ws, wb !! i = Some ws → wb_getitem wb (ws_title ws) = Ok ws) as Hget
    by (intros i ws Hi; by apply (wb_getitem_lookup wb i)).
  split_and!.
  - intros i. unfold select_sheet, sheetnames. rewrite (list_lookup_fmap ws_title).
    destruct (wb !! i) as [ws|] eqn:Hi; setoid_rewrite Hi; simpl; [by apply (Hget i)|done].
  - intros i ws Hi. unfold select_sheet. rewrite bool_decide_eq_true_2; [by apply (Hget i)|].
    unfold sheetnames. apply list_elem_of_fmap. exists ws. split; [done|].
    by eapply list_elem_of_lookup_2.
  - intros s Hs. unfold select_sheet. by rewrite bool_decide_eq_false_2.
Qed.
End Sheets.

(** ** Labels and their positions *)

Lemma label_positions_from_elem cols c : ∀ k i,
  i ∈ label_positions_from k cols c ↔ k ≤ i ∧ cols !! (i - k) = Some c.
Proof.
  induction cols as [|c' cols IH]; intros k i; simpl.
  { rewrite elem_of_nil. split; [done|]. by intros [_ ?]. }
  assert (i ∈ label_positions_from (S k) cols c ↔ k < i ∧ (c' :: cols) !! (i - k) = Some c)
    as Htail.
  { rewrite IH. split.
    - intros [Hle Hl]. split; [lia|]. by replace (i - k) with (S (i - S k)) by lia.
    - intros [Hlt Hl]. split; [lia|]. by replace (i - k) with (S (i - S k)) in Hl by lia. }
  destruct (String.eqb_spec c' c) as [->|Hne].
  - rewrite elem_of_cons, Htail. split.
    + intros [->|[? ?]]; [|split; [lia|done]]. split; [lia|]. by rewrite Nat.sub_diag.
    + intros [Hle Hl]. destruct (decide (i = k)) as [->|]; [by left|right].
      split; [lia|done].
  - rewrite Htail. split.
    + intros [? ?]. split; [lia|done].
    + intros [Hle Hl]. split; [|done].
      destruct (decide (i = k)) as [->|]; [|lia].
      rewrite Nat.sub_diag in Hl. simpl in Hl. congruence.
Qed.

Lemma label_positions_elem cols c i :
  i ∈ label_positions cols c ↔ cols !! i = Some c.
Proof.
  unfold label_positions. rewrite label_positions_from_elem, Nat.sub_0_r.
  split; [by intros [_ ?]|]. split; [lia|done].
Qed.

Lemma label_positions_from_NoDup cols c : ∀ k i,
  NoDup cols → cols !! i = Some c → label_positions_from k cols c = [k + i].
Proof.
  induction cols as [|c' cols IH]; intros k i Hnd Hi; [done|].
  apply NoDup_cons in Hnd as [Hnotin Hnd]. simpl.
  destruct i as [|i]; simpl in Hi.
  - injection Hi as ->. rewrite String.eqb_refl, Nat.add_0_r. f_equal.
    destruct (label_positions_from (S k) cols c) as [|j js] eqn:Hj; [done|].
    exfalso. assert (j ∈ label_positions_from (S k) cols c) as Hin by (rewrite Hj; left).
    apply label_positions_from_elem in Hin as [_ Hl].
    apply Hnotin. by eapply list_elem_of_lookup_2.
  - destruct (String.eqb_spec c' c) as [->|Hne].
    + exfalso. apply Hnotin. by eapply list_elem_of_lookup_2.
    + rewrite (IH (S k) i) by done. f_equal. lia.
Qed.

Lemma label_positions_NoDup cols c i :
  NoDup cols → cols !! i = Some c → label_positions cols c = [i].
Proof. intros Hnd Hi. unfold label_positions. by rewrite (label_positions_from_NoDup cols c 0 i). Qed.

Lemma filter_sublist {A} (f : A → bool) (l : list A) : List.filter f l `sublist_of` l.
Proof. induction l as [|x l IH]; simpl; [done|]. destruct (f x); by constructor. Qed.


Section Subject.
Context `{RT : PyRuntime}.

Lemma selectbox_value_elem options pick :
  match selectbox_value options pick with
  | PStr c => c ∈ options
  | PNone => options = []
  | _ => False
  end.
Proof.
  unfold selectbox_value. destruct (options !! pick) as [c|] eqn:Hp.
  - by eapply list_elem_of_lookup_2.
  - destruct options; [done|left].
Qed.

(** X9.  The options keep the order of the sheet, and there is none only when the
    frame has no column.  Whatever position is picked, the subject is one of
    the options; and with distinct labels it names exactly one column, so the
    filter raises nothing. *)
Theorem subject_names_a_column w path df tr options :
  filterable_cols w path df = (tr, Done options) →
  options `sublist_of` columns df
  ∧ (options = [] ↔ columns df = [])
  ∧ (∀ pick, match selectbox_value options pick with
             | PStr c => c ∈ options ∧ c ∈ columns df
             | PNone => columns df = []
             | _ => False
             end)
  ∧ (NoDup (columns df) → columns df ≠ [] →
     ∀ pick, ∃ df_one, rows_marked_one df (selectbox_value options pick) = Ok df_one).
Proof.
  intros Hrun. unfold filterable_cols in Hrun.
  apply bind_Done_inv in Hrun as (t0 & sum_map & tr1 & _ & Hrun & _).
  assert (options `sublist_of` columns df ∧ (options = [] ↔ columns df = [])) as [Hsub Hnil].
  { destruct (filterable (columns df) sum_map) as [|c0 cols] eqn:Hf.
    - apply bind_Done_inv in Hrun as (? & [] & ? & _ & Hrun & _). injection Hrun as _ <-.
      done.
    - injection Hrun as _ <-. split.
      + rewrite <-Hf. apply filter_sublist.
      + split; [done|]. intros Hc. unfold filterable in Hf. by rewrite Hc in Hf. }
  assert (∀ pick, match selectbox_value options pick with
                  | PStr c => c ∈ options ∧ c ∈ columns df
                  | PNone => columns df = []
                  | _ => False
                  end) as Hpick.
  { intros pick. pose proof (selectbox_value_elem options pick) as Hsel.
    destruct (selectbox_value options pick); try done.
    - by apply Hnil.
    - split; [done|]. by eapply elem_of_sublist. }
  split_and!; [done..|].
  intros Hnd Hne pick. specialize (Hpick pick).
  destruct (selectbox_value options pick) as [| | | |c| |]; try done.
  destruct Hpick as [_ [i Hi]%list_elem_of_lookup].
  unfold rows_marked_one, getitem_apply. rewrite (label_positions_NoDup _ c i) by done.
  destruct (rows df), (dtype_at df i); eexists; reflexivity.
Qed.
End Subject.

(** ** Runs that end in an exception *)

Section Crashes.
Context `{RT : PyRuntime}.

(** X10.  Unlike a failure of [pd.read_excel], a failure of [load_workbook] is not
    caught: the run ends with that exception right after the second access to
    the file, without an error message. *)
Theorem workbook_failure_is_uncaught w file_choice raw e :
  chosen_file w = Some file_choice →
  read_excel w (os_path_join DATA_DIR file_choice) = Ok raw →
  load_workbook w (os_path_join DATA_DIR file_choice) = Raise e →
  main w = ([st_set_page_config PAGE_TITLE; st_markdown page_css;
             os_makedirs DATA_DIR; os_listdir DATA_DIR; st_header SIDEBAR_HEADER;
             st_selectbox LABEL_FILE (excel_files_sorted w);
             pd_read_excel (os_path_join DATA_DIR file_choice);
             openpyxl_load_workbook (os_path_join DATA_DIR file_choice)], Crashed e).
Proof.
  unfold chosen_file, main, choose_file, load_data, filterable_cols,
    read_excel_row_values_for_headers.
  destruct (excel_files_sorted w) as [|first rest]; [done|].
  intros [= <-] Hr Hl. cbn. rewrite Hr. cbn. rewrite Hl. reflexivity.
Qed.

(** X11.  When one of the columns to display is labelled 순번, adding the counter
    column of that name raises ValueError and nothing is shown. *)
Theorem preview_counter_clash df_one :
  "순번" ∈ display_cols df_one →
  preview df_one
  = ([], Crashed (Exn "ValueError" "cannot insert 순번, already exists")).
Proof.
  intros Hin. unfold preview.
  destruct (display_cols df_one) as [|c0 cols] eqn:Hd; [by apply elem_of_nil in Hin|].
  assert (has_column (getitem_cols df_one (c0 :: cols)) "순번" = true) as Hhas.
  { unfold has_column. apply bool_decide_eq_true.
    assert ("순번" ∈ columns df_one) as [i Hi]%list_elem_of_lookup.
    { rewrite <-Hd in Hin. unfold display_cols in Hin.
      apply list_elem_of_In, filter_In in Hin as [_ Hc].
      unfold has_column in Hc. by apply bool_decide_eq_true in Hc. }
    unfold getitem_cols. cbn [columns]. apply list_elem_of_fmap. exists i.
    split; [by rewrite Hi|].
    apply list_elem_of_bind. exists "순번". split; [|done].
    by apply label_positions_elem. }
  unfold df_insert_counter. rewrite Hhas. reflexivity.
Qed.
End Crashes.

(** ** Runs that reach their end *)


Section Completion.
Context `{RT : PyRuntime}.






End Completion.

(** ** What the user is shown, by the way the run ends *)

Section Verdicts.
Context `{RT : PyRuntime}.

Lemma outcome_bind {A B} (m : script A) (f : A → script B) :
  outcome_of (m ≫= f)
  = match outcome_of m with
    | Done a => outcome_of (f a)
    | Stopped => Stopped
    | Crashed e => Crashed e
    end.
Proof.
  destruct m as [tr [a| |e]]; unfold outcome_of; simpl; [|done..].
  by destruct (f a).
Qed.

Lemma verdicts_bind {A B} (m : script A) (f : A → script B) :
  verdicts (trace (m ≫= f))
  = verdicts (trace m)
    ++ match outcome_of m with Done a => verdicts (trace (f a)) | _ => [] end.
Proof.
  rewrite trace_bind. unfold verdicts. rewrite List.filter_app.
  by destruct (outcome_of m).
Qed.

Lemma choose_file_verdict w :
  (∃ f, outcome_of (choose_file w) = Done f ∧ verdicts (trace (choose_file w)) = [])
  ∨ (outcome_of (choose_file w) = Stopped
     ∧ verdicts (trace (choose_file w)) = [st_error MSG_NO_FILES; st_stop]).
Proof.
  rewrite choose_file_run. destruct (excel_files_sorted w); [by right|left; by eexists].
Qed.

Lemma load_data_verdict w path :
  (∃ df, outcome_of (load_data w path) = Done df ∧ verdicts (trace (load_data w path)) = [])
  ∨ (outcome_of (load_data w path) = Stopped
     ∧ ∃ e, read_excel w path = Raise e
            ∧ verdicts (trace (load_data w path))
              = [st_error (MSG_LOAD_FAILED +:+ exn_str e); st_stop]).
Proof.
  unfold load_data. destruct (read_excel w path) as [raw|e]; [left; by eexists|right].
  split; [done|]. by exists e.
Qed.

Lemma filterable_cols_verdict w path df :
  verdicts (trace (filterable_cols w path df)) = []
  ∧ outcome_of (filterable_cols w path df) ≠ Stopped.
Proof.
  unfold filterable_cols, read_excel_row_values_for_headers.
  destruct (load_workbook w path) as [wb|]; [|done].
  cbn -[row_values_for_headers filterable select_sheet].
  destruct (select_sheet wb SHEET_NAME) as [ws|]; [|done].
  cbn -[row_values_for_headers filterable].
  destruct (row_values_for_headers ws _ _ _) as [m|]; [|done]. cbn -[filterable].
  by destruct (filterable _ _).
Qed.

Lemma calc_h_bounds len : 285 ≤ calc_h len ≤ 900.
Proof. unfold calc_h. lia. Qed.

Lemma filter_and_show_verdict df filter_col :
  (∃ df_view d h, outcome_of (filter_and_show df filter_col) = Done df_view
                  ∧ verdicts (trace (filter_and_show df filter_col)) = [st_dataframe d h]
                  ∧ 285 ≤ h ≤ 900)
  ∨ (∃ e, outcome_of (filter_and_show df filter_col) = Crashed e
          ∧ verdicts (trace (filter_and_show df filter_col)) = []).
Proof.
  unfold filter_and_show. destruct (rows_marked_one df filter_col) as [df_one|e];
    [|right; by exists e].
  cbn -[preview]. unfold preview.
  destruct (display_cols df_one).
  { left. eexists _, _, _. split_and!; [done..|lia|lia]. }
  destruct (df_insert_counter _ _) as [d|e]; [|right; by exists e].
  left. eexists _, _, _. split_and!; [done..|apply calc_h_bounds|apply calc_h_bounds].
Qed.

Lemma download_verdict df_view file_choice filter_col :
  (∃ data name, outcome_of (download df_view file_choice filter_col) = Done tt
                ∧ verdicts (trace (download df_view file_choice filter_col))
                  = [st_download_button LABEL_DOWNLOAD data name XLSX_MIME])
  ∨ (∃ e, outcome_of (download df_view file_choice filter_col) = Crashed e
          ∧ verdicts (trace (download df_view file_choice filter_col)) = []).
Proof.
  rewrite download_run. destruct (build_formatted_excel _ _ _) as [wb|e];
    [left; by eexists _, _|right; by exists e].
Qed.

(** X14.  A run that reaches its end has shown one frame, between 285 and 900
    pixels high, then one download button, then the closing message, and no
    error.  A run that stops has shown one error message and nothing else:
    the request for files, or the load-failure text with that of an exception.
    A run that ends in an exception has shown no error, no download and no
    closing message, and at most the frame. *)
Theorem what_the_user_is_shown w :
  match outcome_of (main w) with
  | Done _ =>
      ∃ d h data name,
        verdicts (trace (main w))
        = [st_dataframe d h; st_download_button LABEL_DOWNLOAD data name XLSX_MIME;
           st_success MSG_DONE]
        ∧ 285 ≤ h ≤ 900
  | Stopped =>
      ∃ msg, verdicts (trace (main w)) = [st_error msg; st_stop]
             ∧ (msg = MSG_NO_FILES ∨ ∃ e, msg = MSG_LOAD_FAILED +:+ exn_str e)
  | Crashed _ =>
      verdicts (trace (main w)) = []
      ∨ ∃ d h, verdicts (trace (main w)) = [st_dataframe d h]
  end.
Proof.
  unfold main.
  rewrite outcome_bind, verdicts_bind. change (outcome_of page_setup) with (Done tt).
  change (verdicts (trace page_setup)) with (@nil event). cbv beta iota. rewrite app_nil_l.
  rewrite outcome_bind, verdicts_bind.
  destruct (choose_file_verdict w) as [(file_choice & -> & ->)|[-> ->]];
    [|eexists; split; [done|by left]].
  cbv beta iota zeta. rewrite app_nil_l.
  rewrite outcome_bind, verdicts_bind.
  destruct (load_data_verdict w (os_path_join DATA_DIR file_choice))
    as [(df & -> & ->)|(-> & e & _ & ->)]; [|eexists; split; [done|right; by exists e]].
  cbv beta iota. rewrite app_nil_l.
  rewrite outcome_bind, verdicts_bind.
  destruct (filterable_cols_verdict w (os_path_join DATA_DIR file_choice) df) as [-> Hns].
  destruct (outcome_of (filterable_cols _ _ _)) as [options| |e]; [|done|by left].
  rewrite app_nil_l.
  rewrite outcome_bind, verdicts_bind.
  change (outcome_of (choose_subject w options))
    with (Done (A := pyval) (selectbox_value options (subject_pick w))).
  change (verdicts (trace (choose_subject w options))) with (@nil event).
  cbv beta iota. rewrite app_nil_l.
  set (filter_col := selectbox_value options (subject_pick w)).
  rewrite outcome_bind, verdicts_bind.
  change (outcome_of (page_title file_choice filter_col)) with (Done tt).
  change (verdicts (trace (page_title file_choice filter_col))) with (@nil event).
  cbv beta iota. rewrite app_nil_l.
  rewrite outcome_bind, verdicts_bind.
  destruct (filter_and_show_verdict df filter_col)
    as [(df_view & d & h & -> & -> & Hh)|(e & -> & ->)]; [|by left].
  cbv beta iota.
  rewrite outcome_bind, verdicts_bind.
  destruct (download_verdict df_view file_choice filter_col)
    as [(data & name & -> & ->)|(e & -> & ->)].
  - cbv beta iota. by eexists _, _, _, _.
  - right. by eexists _, _.
Qed.
End Verdicts.

(** ** The file name in the title and in the download *)

Section FileStem.
Context `{RT : PyRuntime}.

Lemma str_replace_go_dotless_prefix stem rest :
  "."%char ∉ list_ascii_of_string stem →
  str_replace_go ".xlsx" "" 0 (stem +:+ rest) = stem +:+ str_replace_go ".xlsx" "" 0 rest.
Proof.
  induction stem as [|a stem IH]; intros Hdot; [done|].
  simpl in Hdot. apply not_elem_of_cons in Hdot as [Ha Hdot].
  change (String a stem +:+ rest) with (String a (stem +:+ rest)).
  cbn [str_replace_go]. unfold str_startswith. cbn [str_prefix_drop].
  destruct (Ascii.eqb "." a) eqn:E; [apply Ascii.eqb_eq in E; by subst|].
  rewrite IH by done. reflexivity.
Qed.

Lemma append_empty_r (s : string) : s +:+ "" = s.
Proof.
  induction s as [|a s IH]; [done|].
  change (String a s +:+ "") with (String a (s +:+ "")). by rewrite IH.
Qed.

Lemma str_replace_stem stem :
  "."%char ∉ list_ascii_of_string stem →
  str_replace (stem +:+ ".xlsx") ".xlsx" "" = stem
  ∧ str_replace (stem +:+ ".xls") ".xlsx" "" = stem +:+ ".xls"
  ∧ str_replace (stem +:+ ".XLSX") ".xlsx" "" = stem +:+ ".XLSX".
Proof.
  intros Hdot. unfold str_replace. rewrite !str_replace_go_dotless_prefix by done.
  split_and!; [|done..]. apply append_empty_r.
Qed.

(** X15.  For a file whose normalised name is a dot-free stem followed by .xlsx,
    the page title and the download name use the stem alone.  The extension
    is removed only in that spelling: a name in .xls or .XLSX, which the
    sidebar offers as well, keeps it, so that the download is called
    stem.xls_subject.xlsx. *)
Theorem file_name_in_title_and_download df_view file_choice filter_col stem ext wb :
  "."%char ∉ list_ascii_of_string stem →
  normalize_text (PStr file_choice) = stem +:+ ext →
  ext ∈ [".xlsx"; ".xls"; ".XLSX"] →
  build_formatted_excel df_view file_choice filter_col = Ok wb →
  let shown_name := if String.eqb ext ".xlsx" then stem else stem +:+ ext in
  page_title file_choice filter_col
  = ([st_markdown ("<h1 style='text-align:center;'>"
                     +:+ (shown_name +:+ " " +:+ normalize_text filter_col +:+ " 수강자 명단")
                     +:+ "</h1>")], Done tt)
  ∧ download df_view file_choice filter_col
    = ([st_download_button LABEL_DOWNLOAD (XlsxData wb)
          (shown_name +:+ "_" +:+ normalize_text filter_col +:+ ".xlsx") XLSX_MIME],
       Done tt).
Proof.
  intros Hdot Hname Hext Hwb shown_name.
  destruct (str_replace_stem stem Hdot) as (H1 & H2 & H3).
  assert (str_replace (normalize_text (PStr file_choice)) ".xlsx" "" = shown_name) as Hstem.
  { rewrite Hname. unfold shown_name.
    rewrite !elem_of_cons, elem_of_nil in Hext.
    destruct Hext as [->|[->|[->|[]]]]; done. }
  split.
  - unfold page_title. cbn zeta. rewrite Hstem. done.
  - rewrite download_run, Hwb, Hstem. done.
Qed.
End FileStem.

(** ** The further statements at the sample inputs *)


(** Three rows of the roster are marked for Math, and none for Music. *)
Lemma rows_marked_one_twice_sample :
  ∃ math music,
    rows_marked_one (RT := ascii_runtime) roster_frame (PStr "Math") = Ok math
    ∧ length (rows math) = 3
    ∧ rows_marked_one (RT := ascii_runtime) math (PStr "Math") = Ok math
    ∧ rows_marked_one (RT := ascii_runtime) roster_frame (PStr "Music") = Ok music
    ∧ columns music = columns roster_frame ∧ rows music = []
    ∧ rows_marked_one (RT := ascii_runtime) music (PStr "Music")
      = Ok {| columns := []; dtypes := []; rows := [] |}.
Proof.
  eexists _, _.
  assert (rows_marked_one (RT := ascii_runtime) roster_frame (PStr "Math") = Ok _) as Hmath
    by (vm_compute; reflexivity).
  assert (rows_marked_one (RT := ascii_runtime) roster_frame (PStr "Music") = Ok _) as Hmusic
    by (vm_compute; reflexivity).
  split; [exact Hmath|]. split; [reflexivity|].
  destruct (rows_marked_one_twice (RT := ascii_runtime) roster_frame (PStr "Math") _ Hmath)
    as (c & i & _ & _ & _ & [_ Hagain]).
  split; [exact Hagain|]. split; [exact Hmusic|]. split; [reflexivity|].
  split; [reflexivity|].
  destruct (rows_marked_one_twice (RT := ascii_runtime) roster_frame (PStr "Music") _ Hmusic)
    as (c' & i' & Hc & Hi & _ & Hnone).
  injection Hc as <-. vm_compute in Hi. injection Hi as <-.
  exact (proj2 Hnone).
Defined.

Lemma excel_files_sorted_any_listing_sample :
  listdir sample_world ≡ₚ listdir shuffled_world
  ∧ excel_files_sorted (RT := ascii_runtime) sample_world
    = excel_files_sorted (RT := ascii_runtime) shuffled_world.
Proof.
  assert (listdir sample_world ≡ₚ listdir shuffled_world) as Hperm
    by (simpl; apply perm_swap).
  split; [exact Hperm|].
  exact (excel_files_sorted_any_listing (RT := ascii_runtime) sample_world shuffled_world Hperm).
Defined.

Lemma select_sheet_by_index_or_title_sample :
  NoDup (sheetnames two_sheets)
  ∧ select_sheet two_sheets (SheetTitle "Sheet2") = Ok (set_title "Sheet2" new_sheet)
  ∧ select_sheet two_sheets (SheetTitle "Summary") = Ok roster_sheet
  ∧ select_sheet two_sheets (SheetIndex 2)
    = Raise (Exn "IndexError" "list index out of range").
Proof.
  assert (NoDup (sheetnames two_sheets)) as Hnd.
  { simpl. repeat constructor; rewrite ?elem_of_cons, ?elem_of_nil; intros H;
      repeat destruct H as [H|H]; done. }
  split; [exact Hnd|].
  destruct (select_sheet_by_index_or_title two_sheets Hnd) as (Hidx & Htitle & Hmiss).
  split; [|split].
  - exact (Htitle 1 (set_title "Sheet2" new_sheet) eq_refl).
  - rewrite Hmiss.
    + exact (Hidx 0).
    + simpl. rewrite !elem_of_cons, elem_of_nil. intros H. repeat destruct H as [H|H]; done.
  - exact (Hidx 2).
Defined.

Lemma subject_names_a_column_sample :
  filterable_cols (RT := ascii_runtime) sample_world "./data/week1.xlsx" roster_frame
  = ([openpyxl_load_workbook "./data/week1.xlsx"], Done ["Math"; "Art"])
  ∧ ["Math"; "Art"] `sublist_of` columns roster_frame
  ∧ ∃ df_one, rows_marked_one (RT := ascii_runtime) roster_frame
                (selectbox_value ["Math"; "Art"] 1) = Ok df_one.
Proof.
  assert (filterable_cols (RT := ascii_runtime) sample_world "./data/week1.xlsx" roster_frame
          = ([openpyxl_load_workbook "./data/week1.xlsx"], Done ["Math"; "Art"])) as Hrun
    by (vm_compute; reflexivity).
  split; [exact Hrun|].
  destruct (subject_names_a_column (RT := ascii_runtime) _ _ _ _ _ Hrun)
    as (Hsub & _ & _ & Hone).
  split; [exact Hsub|]. apply Hone.
  - simpl. repeat constructor; rewrite ?elem_of_cons, ?elem_of_nil; intros H;
      repeat destruct H as [H|H]; done.
  - done.
Defined.

Lemma workbook_failure_is_uncaught_sample :
  chosen_file (RT := ascii_runtime) locked_world = Some "week1.xlsx"
  ∧ main (RT := ascii_runtime) locked_world
    = ([st_set_page_config PAGE_TITLE; st_markdown page_css;
        os_makedirs DATA_DIR; os_listdir DATA_DIR; st_header SIDEBAR_HEADER;
        st_selectbox LABEL_FILE ["week1.xlsx"];
        pd_read_excel "./data/week1.xlsx";
        openpyxl_load_workbook "./data/week1.xlsx"],
       Crashed (Exn "PermissionError" "[Errno 13] Permission denied")).
Proof.
  split; [vm_compute; reflexivity|].
  apply (workbook_failure_is_uncaught (RT := ascii_runtime) locked_world "week1.xlsx" roster).
  - vm_compute. reflexivity.
  - reflexivity.
  - reflexivity.
Defined.

Lemma preview_counter_clash_sample :
  display_cols (RT := ascii_runtime) numbered_frame = ["순번"; "이름"]
  ∧ preview (RT := ascii_runtime) numbered_frame
    = ([], Crashed (Exn "ValueError" "cannot insert 순번, already exists")).
Proof.
  assert (display_cols (RT := ascii_runtime) numbered_frame = ["순번"; "이름"]) as Hcols
    by (vm_compute; reflexivity).
  split; [exact Hcols|].
  apply (preview_counter_clash (RT := ascii_runtime) numbered_frame).
  rewrite Hcols. left.
Defined.


Lemma file_name_in_title_and_download_sample :
  ∃ wb,
    build_formatted_excel (RT := ascii_runtime) roster_frame "week1.xls" (PStr "Math")
    = Ok wb
    ∧ download (RT := ascii_runtime) roster_frame "week1.xls" (PStr "Math")
      = ([st_download_button LABEL_DOWNLOAD (XlsxData wb) "week1.xls_Math.xlsx" XLSX_MIME],
         Done tt).
Proof.
  eexists.
  assert (build_formatted_excel (RT := ascii_runtime) roster_frame "week1.xls" (PStr "Math")
          = Ok _) as Hwb by (vm_compute; reflexivity).
  split; [exact Hwb|].
  refine (proj2 (file_name_in_title_and_download (RT := ascii_runtime) roster_frame
                   "week1.xls" (PStr "Math") "week1" ".xls" _ _ _ _ Hwb)).
  - simpl. rewrite !elem_of_cons, elem_of_nil. intros H. repeat destruct H as [H|H]; done.
  - vm_compute. reflexivity.
  - right. left.
Defined.

